(** * World Bank (WDI) -> BigQuery RAW ingest

    A shallow embedding of [src/ingest/ingest_worldbank_to_bq.py]:
    the retrying transport [wb_get_json], the two pagination loops and
    normalizers [fetch_indicators_long] and [fetch_countries_dim], the
    warehouse helpers [bq_ensure_tables] and [bq_append_df], and [main].

    How the script is read:
    - Python values are JSON terms: [int] is [Z], [float] is a rational, an
      infinity or NaN, a [dict] is an association list with distinct keys.
    - An exception is a result, not a jump: every step returns an [Outcome].
    - The network, the clock, the UUID source and the BigQuery load job are
      a [Platform]; its world is threaded through a state-and-error monad
      that also keeps the trace of what the run did and the destination
      tables.  The two [while True] loops take fuel.
    - [int(str)], [str(object)] and pandas' text-to-number parser are a
      [Text]: the properties hold for every such conversion.
    - pandas is read call by call: [json_normalize], the column index of a
      frame built from dicts, [rename], column selection with its
      [KeyError], [to_numeric(errors="coerce")] and [astype("Int64")] on a
      whole column -- a column with a cell that is not an integer is a
      float64 column, and its integers are rounded to float64 --, [dropna],
      boolean-mask filtering and [isin].  Four corners are left out and
      marked [Unmodelled]: a list among the elements given to
      [json_normalize]; two columns that carry one name after [rename]; an
      integer outside the int64 range in a column given to [to_numeric];
      an infinity in a column cast to [Int64].
    - A destination table is the list of batches appended to it; a load job
      commits its whole batch or nothing.  [get_table] finds a table that is
      there unless the call itself fails, and [create_table] refuses a table
      that is there.  [load_dotenv] and the [print] calls are left out. *)

From Stdlib Require Import ZArith QArith Qminmax String List Lia DecimalString.
From Stdlib Require SpecFloat.
From stdpp Require Import base strings gmap list.

Set Warnings "-register-all".

(** ** Python values, exceptions and builtins *)

Module Py.

(** A Python [float]: a rational (every finite double is one), an infinity
    or NaN. *)
Inductive PyFloat : Type :=
| Finite (q : Q)
| PosInf
| NegInf
| NaN.

(** What [r.json()] can return.  A [JObj] is a Python [dict]: its keys are
    distinct. *)
Inductive Json : Type :=
| JNull
| JBool (b : bool)
| JInt (z : Z)
| JFloat (f : PyFloat)
| JStr (s : string)
| JList (l : list Json)
| JObj (fields : list (string * Json)).

Abbreviation Dict := (list (string * Json)).

Inductive Exc : Type :=
| RequestException (detail : string)
| JSONDecodeError
| HTTPError (status : Z)
| RuntimeError (last_err : option Exc)
| KeyError (keys : list string)
| IndexError
| TypeError
| ValueError (msg : string)
| AttributeError
| OverflowError
| LoadError (table : string)
| Conflict (table : string).

(** The result of running a piece of the script.  [OutOfFuel] is the model
    running out of loop fuel; [Unmodelled] marks the two pandas corners this
    development does not describe (see [Pandas.json_normalize] and
    [Ingest.select_indicator_columns]). *)
Inductive Outcome (A : Type) : Type :=
| Ret (a : A)
| Raise (e : Exc)
| OutOfFuel
| Unmodelled.
Arguments Ret {A} a.
Arguments Raise {A} e.
Arguments OutOfFuel {A}.
Arguments Unmodelled {A}.

Definition obind {A B} (o : Outcome A) (k : A -> Outcome B) : Outcome B :=
  match o with
  | Ret a => k a
  | Raise e => Raise e
  | OutOfFuel => OutOfFuel
  | Unmodelled => Unmodelled
  end.

(** What pandas' numeric parser reads in one cell: an integer, or a float. *)
Inductive Numeric : Type :=
| NInt (z : Z)
| NFloat (f : PyFloat).

(** Conversions between text and other values that the script reaches
    through [int(...)], [.astype(str)] and [pd.to_numeric]. *)
Class Text := {
  (** [int(s)] on a [str]; [None] is [ValueError]. *)
  int_of_str : string -> option Z;
  (** [str(x)] on a value that is not itself a [str]. *)
  str_of : Json -> string;
  (** pandas' numeric parser on a text, under [errors="coerce"]: the integer
      an integer literal denotes, the float another numeric literal denotes,
      NaN when the text is not a number. *)
  numeric_of_str : string -> Numeric;
}.

Fixpoint dict_get (k : string) (d : Dict) : option Json :=
  match d with
  | [] => None
  | (k', v) :: d' => if String.eqb k k' then Some v else dict_get k d'
  end.

(** [d[k] = v] on a dict: overwrite in place or append. *)
Fixpoint dict_set (k : string) (v : Json) (d : Dict) : Dict :=
  match d with
  | [] => [(k, v)]
  | (k', v') :: d' =>
      if String.eqb k k' then (k, v) :: d' else (k', v') :: dict_set k v d'
  end.

Definition dict_keys (d : Dict) : list string := map fst d.

Definition is_list (j : Json) : bool :=
  match j with JList _ => true | _ => false end.

Definition is_dict (j : Json) : bool :=
  match j with JObj _ => true | _ => false end.

(** [bool(x)], as in [if not items]. *)
Definition truthy (j : Json) : bool :=
  match j with
  | JNull => false
  | JBool b => b
  | JInt z => negb (z =? 0)%Z
  | JFloat (Finite q) => negb (Qeq_bool q 0)
  | JFloat _ => true
  | JStr s => negb (String.eqb s "")
  | JList l => match l with [] => false | _ => true end
  | JObj d => match d with [] => false | _ => true end
  end.

Definition chars (s : string) : list Json :=
  map (fun c => JStr (String c EmptyString)) (list_ascii_of_string s).

(** Iteration, as [rows.extend(items)] performs it. *)
Definition iter (j : Json) : Outcome (list Json) :=
  match j with
  | JList l => Ret l
  | JObj d => Ret (map JStr (dict_keys d))
  | JStr s => Ret (chars s)
  | _ => Raise TypeError
  end.

(** [data[i]] with an integer index [i >= 0]. *)
Definition index (j : Json) (i : nat) : Outcome Json :=
  match j with
  | JList l => match nth_error l i with Some x => Ret x | None => Raise IndexError end
  | JStr s => match nth_error (chars s) i with Some x => Ret x | None => Raise IndexError end
  | JObj _ => Raise (KeyError [NilZero.string_of_int (Z.to_int (Z.of_nat i))])
  | _ => Raise TypeError
  end.

(** [meta[k]] with a text key. *)
Definition subscript (j : Json) (k : string) : Outcome Json :=
  match j with
  | JObj d => match dict_get k d with Some v => Ret v | None => Raise (KeyError [k]) end
  | _ => Raise TypeError
  end.

(** [meta.get(k, dflt)]: only a dict has [.get]. *)
Definition get (j : Json) (k : string) (dflt : Json) : Outcome Json :=
  match j with
  | JObj d => Ret (match dict_get k d with Some v => v | None => dflt end)
  | _ => Raise AttributeError
  end.

Definition trunc (q : Q) : Z := Z.quot (Qnum q) (Zpos (Qden q)).

(** [int(x)]. *)
Definition int {TX : Text} (j : Json) : Outcome Z :=
  match j with
  | JInt z => Ret z
  | JBool b => Ret (if b then 1 else 0)%Z
  | JFloat (Finite q) => Ret (trunc q)
  | JFloat NaN => Raise (ValueError "cannot convert float NaN to integer")
  | JFloat _ => Raise OverflowError
  | JStr s =>
      match int_of_str s with
      | Some z => Ret z
      | None => Raise (ValueError "invalid literal for int()")
      end
  | _ => Raise TypeError
  end.

(** [str(x)], as [.astype(str)] applies it to each cell. *)
Definition str {TX : Text} (j : Json) : string :=
  match j with
  | JStr s => s
  | _ => str_of j
  end.

(** [range(a, b)]. *)
Definition range (a b : Z) : list Z :=
  map (fun i => (a + Z.of_nat i)%Z) (seq 0 (Z.to_nat (b - a))).

End Py.
Export Py.

(** ** The pandas calls the script makes

    A frame is its column index and one flattened record per row; a cell
    that a record does not have reads as NaN, as in a frame built from a
    list of dicts. *)

Module Pandas.

Record Frame := { columns : list string; records : list Dict }.

Definition new_key (key_string key : string) : string :=
  if String.eqb key_string "" then key else key_string +:+ "." +:+ key.

(** pandas' [_normalise_json]: nested dicts become dotted keys; an empty
    nested dict leaves no key. *)
Fixpoint _normalise_json (data : Json) (key_string : string)
    (normalized_dict : Dict) {struct data} : Dict :=
  match data with
  | JObj fields =>
      (fix items (fs : Dict) (acc : Dict) {struct fs} : Dict :=
         match fs with
         | [] => acc
         | (key, v) :: fs' =>
             items fs' (_normalise_json v (new_key key_string key) acc)
         end) fields normalized_dict
  | _ => dict_set key_string data normalized_dict
  end.

(** [{**a, **b}]. *)
Definition dict_update (a b : Dict) : Dict :=
  fold_left (fun acc kv => dict_set (fst kv) (snd kv) acc) b a.

Definition _normalise_json_ordered (data : Dict) : Dict :=
  let top_dict_ := List.filter (fun kv => negb (is_dict (snd kv))) data in
  let nested_dict_ :=
    _normalise_json (JObj (List.filter (fun kv => is_dict (snd kv)) data)) "" [] in
  dict_update top_dict_ nested_dict_.

(** One element of the list given to [json_normalize]: a dict is flattened,
    a scalar becomes the empty record. *)
Definition flatten (row : Json) : Dict :=
  match row with
  | JObj fields => _normalise_json_ordered fields
  | _ => []
  end.

Fixpoint union_keys (seen ks : list string) : list string :=
  match ks with
  | [] => seen
  | k :: ks' =>
      union_keys (if existsb (String.eqb k) seen then seen else seen ++ [k]) ks'
  end.

(** The column index of [DataFrame(list_of_dicts)]: every key, in order of
    first appearance. *)
Definition frame_columns (recs : list Dict) : list string :=
  fold_left (fun seen r => union_keys seen (dict_keys r)) recs [].

(** [pd.json_normalize(rows)] with default arguments.  The empty list gives
    the frame with no rows and no columns.  A list that has a list among its
    elements is not modelled. *)
Definition json_normalize (rows : list Json) : Outcome Frame :=
  if existsb is_list rows then Unmodelled
  else
    let recs := map flatten rows in
    Ret {| columns := frame_columns recs; records := recs |}.

Definition has_column (df : Frame) (c : string) : bool :=
  existsb (String.eqb c) (columns df).

Definition cell (r : Dict) (c : string) : Json :=
  match dict_get c r with
  | Some v => v
  | None => JFloat NaN
  end.

(** [pd.isna] on one cell: [None] and NaN. *)
Definition isna (j : Json) : bool :=
  match j with
  | JNull => true
  | JFloat NaN => true
  | _ => false
  end.

(** Run [f] down a column; the first failure is the column's. *)
Fixpoint traverse {A B} (f : A -> Outcome B) (l : list A) : Outcome (list B) :=
  match l with
  | [] => Ret []
  | x :: l' => obind (f x) (fun y => obind (traverse f l') (fun ys => Ret (y :: ys)))
  end.

(** The column [c] of a frame's records. *)
Definition column (recs : list Dict) (c : string) : list Json :=
  map (fun r => cell r c) recs.

(** What [pd.to_numeric(..., errors="coerce")] reads in one cell: what is
    not a number is NaN. *)
Definition numeric_cell {TX : Text} (j : Json) : Numeric :=
  match j with
  | JNull => NFloat NaN
  | JBool b => NInt (if b then 1 else 0)
  | JInt z => NInt z
  | JFloat f => NFloat f
  | JStr s => if String.eqb s "" then NFloat NaN else numeric_of_str s
  | JList _ => NFloat NaN
  | JObj _ => NFloat NaN
  end.

Definition int64_min : Z := (- 2 ^ 63)%Z.
Definition int64_max : Z := (2 ^ 63 - 1)%Z.

Definition fits_int64 (z : Z) : bool := (int64_min <=? z)%Z && (z <=? int64_max)%Z.

Definition is_int (n : Numeric) : bool :=
  match n with NInt _ => true | NFloat _ => false end.

Definition beyond_int64 (n : Numeric) : bool :=
  match n with NInt z => negb (fits_int64 z) | NFloat _ => false end.

(** The float64 nearest to the integer [z], ties to even (IEEE 754
    binary64: 53 bits of mantissa), as a float64 column holds [z]. *)
Definition float64_of_Z (z : Z) : PyFloat :=
  match SpecFloat.binary_normalize 53 1024 z 0 false with
  | SpecFloat.S754_zero _ => Finite 0
  | SpecFloat.S754_finite s m e =>
      Finite (inject_Z (if s then - Z.shiftl (Zpos m) e else Z.shiftl (Zpos m) e))
  | SpecFloat.S754_infinity s => if s then NegInf else PosInf
  | SpecFloat.S754_nan => NaN
  end.

(** A cell of an int64 column. *)
Definition exactly (n : Numeric) : PyFloat :=
  match n with NInt z => Finite (inject_Z z) | NFloat f => f end.

(** A cell of a float64 column. *)
Definition as_float64 (n : Numeric) : PyFloat :=
  match n with NInt z => float64_of_Z z | NFloat f => f end.

(** [pd.to_numeric(column, errors="coerce")].  When every cell is an
    integer the result is an int64 column and holds the integers as they
    are; when some cell is a float or not a number the result is a float64
    column and every integer in it is rounded to float64.  A column with an
    integer outside the int64 range is not modelled. *)
Definition to_numeric {TX : Text} (column : list Json) : Outcome (list PyFloat) :=
  let cells := map numeric_cell column in
  if existsb beyond_int64 cells then Unmodelled
  else if forallb is_int cells then Ret (map exactly cells)
  else Ret (map as_float64 cells).

(** The cast of one cell to [Int64]: NaN becomes [<NA>], an integer-valued
    number in range becomes that integer, and any other finite number fails
    ("cannot safely cast non-equivalent float64 to int64"). *)
Definition cast_Int64 (f : PyFloat) : Outcome (option Z) :=
  match f with
  | NaN => Ret None
  | Finite q =>
      let z := trunc q in
      if Qeq_bool q (inject_Z z) && fits_int64 z then Ret (Some z)
      else Raise TypeError
  | _ => Unmodelled
  end.

Definition is_infinite (f : PyFloat) : bool :=
  match f with PosInf | NegInf => true | _ => false end.

(** [.astype("Int64")] on a numeric column: one failing cell fails the cast
    of the whole column.  A column with an infinity is not modelled. *)
Definition astype_Int64 (column : list PyFloat) : Outcome (list (option Z)) :=
  if existsb is_infinite column then Unmodelled else traverse cast_Int64 column.

(** Rows built from three columns of one length. *)
Fixpoint zip_with3 {A B C D} (f : A -> B -> C -> D)
    (l : list A) (m : list B) (n : list C) : list D :=
  match l, m, n with
  | a :: l', b :: m', c :: n' => f a b c :: zip_with3 f l' m' n'
  | _, _, _ => []
  end.

End Pandas.
Export Pandas.

(** ** Data model: the two output tables and their provenance columns *)

Module Obs.
(** One row of the observation table, in the script's column order.  [year]
    is a nullable [Int64]; [value] is a float whose null is NaN. *)
Record t := {
  country_iso3 : Json;
  country_name : Json;
  year : option Z;
  indicator_code : Json;
  indicator_name : Json;
  value : PyFloat;
}.
End Obs.

Module Dim.
(** One row of the country dimension. *)
Record t := {
  country_iso3 : Json;
  country_iso2 : Json;
  country_name : Json;
  region : Json;
  income_level : Json;
  lending_type : Json;
  capital_city : Json;
  capital_lat : PyFloat;
  capital_lon : PyFloat;
}.
End Dim.

(** A row with the [load_ts] and [run_id] columns attached. *)
Record Stamped (A : Type) := {
  row : A;
  load_ts : Z;
  run_id : string;
}.
Arguments row {A} _.
Arguments load_ts {A} _.
Arguments run_id {A} _.

(** [df["load_ts"] = load_ts; df["run_id"] = run_id]: one scalar broadcast
    to every row. *)
Definition stamp {A} (ts : Z) (rid : string) (df : list A) : list (Stamped A) :=
  map (fun r => {| row := r; load_ts := ts; run_id := rid |}) df.

(** What a load job appends to a destination table. *)
Inductive Batch : Type :=
| CountryBatch (rows : list (Stamped Dim.t))
| IndicatorBatch (rows : list (Stamped Obs.t)).

(** ** The outside world *)

Inductive ParamVal : Type :=
| PStr (s : string)
| PInt (z : Z).

Abbreviation Params := (list (string * ParamVal)).

Record Response := {
  status_code : Z;
  (** [r.json()]; [None] when the body does not decode. *)
  json : option Json;
}.

(** What [requests.get] does: raise, or hand back a response. *)
Inductive GetResult : Type :=
| Raised (e : Exc)
| Responded (r : Response).

Class Platform := {
  World : Type;
  (** [requests.get(url, params=params, timeout=timeout_s)] *)
  requests_get : string -> Params -> Z -> World -> GetResult * World;
  (** [str(uuid.uuid4())] *)
  uuid4 : World -> string * World;
  (** [dt.datetime.now(dt.timezone.utc)] *)
  datetime_now_utc : World -> Z * World;
  (** [bigquery.Client(project=project_id)]: [None] when the client is
      built, the error the constructor raises otherwise. *)
  new_client : string -> World -> option Exc * World;
  (** [client.get_table(ref)]: the error the call raises for a reason other
      than the table not being there, [None] when the service answers. *)
  get_table : string -> World -> option Exc * World;
  (** [client.create_table(table)]: the error the call raises for a reason
      other than the table being there already, [None] when the service
      answers. *)
  create_table : string -> World -> option Exc * World;
  (** [client.load_table_from_dataframe(...).result()]: [None] when the job
      succeeds, the error it raises otherwise. *)
  load_job : string -> Batch -> World -> option Exc * World;
}.

Inductive Event : Type :=
| EvGet (url : string) (params : Params) (timeout_s : Z)
| EvSleep (seconds : Q)
| EvUuid4 (v : string)
| EvNow (t : Z)
| EvCreateTable (table : string)
| EvLoad (table : string) (batch : Batch) (committed : bool).

(** ** State and errors *)

Section Effects.
Context {PF : Platform}.

(** The world, what the run has done so far (oldest event first), and the
    destination tables: a table is the list of batches appended to it. *)
Record St := {
  world : World;
  trace : list Event;
  warehouse : gmap string (list Batch);
}.

Definition M (A : Type) : Type := St -> Outcome A * St.

Definition ret {A} (a : A) : M A := fun st => (Ret a, st).

Definition raise {A} (e : Exc) : M A := fun st => (Raise e, st).

Definition lift {A} (o : Outcome A) : M A := fun st => (o, st).

Definition out_of_fuel {A} : M A := fun st => (OutOfFuel, st).

Definition bind {A B} (m : M A) (k : A -> M B) : M B := fun st =>
  match m st with
  | (Ret a, st') => k a st'
  | (Raise e, st') => (Raise e, st')
  | (OutOfFuel, st') => (OutOfFuel, st')
  | (Unmodelled, st') => (Unmodelled, st')
  end.

Definition log (ev : Event) (st : St) : St :=
  {| world := world st; trace := trace st ++ [ev]; warehouse := warehouse st |}.

Definition set_world (w : World) (st : St) : St :=
  {| world := w; trace := trace st; warehouse := warehouse st |}.

(** Run a world operation and record it. *)
Definition perform {A} (op : World -> A * World) (ev : A -> Event) : M A :=
  fun st =>
    let '(a, w) := op (world st) in
    (Ret a, log (ev a) (set_world w st)).

Definition time_sleep (seconds : Q) : M unit :=
  fun st => (Ret tt, log (EvSleep seconds) st).

End Effects.

Declare Scope py_scope.
Delimit Scope py_scope with py.
Notation "x <- c1 ;; c2" := (bind c1 (fun x => c2))
  (at level 100, c1 at next level, c2 at level 200, right associativity) : py_scope.
Notation "c1 ;; c2" := (bind c1 (fun _ => c2))
  (at level 100, c2 at level 200, right associativity) : py_scope.
Open Scope py_scope.

(** ** The script *)

Module Ingest.
Section Script.
Context {TX : Text} {PF : Platform}.

Definition WB_BASE : string := "https://api.worldbank.org/v2".

Definition INDICATORS : list (string * string) :=
  [ ("NY.GDP.PCAP.KD.ZG", "GDP per capita growth (annual %)");
    ("NY.GDP.MKTP.KD.ZG", "GDP growth (annual %)");
    ("FP.CPI.TOTL.ZG", "Inflation, consumer prices (annual %)");
    ("GC.DOD.TOTL.GD.ZS", "Central government debt, total (% of GDP)");
    ("DT.DOD.DECT.GN.ZS", "External debt stocks (% of GNI)");
    ("DT.TDS.DECT.EX.ZS", "Total debt service (% of exports)");
    ("FI.RES.TOTL.MO", "Total reserves in months of imports");
    ("SL.UEM.TOTL.ZS", "Unemployment, total (% of labor force)");
    ("NE.TRD.GNFS.ZS", "Trade (% of GDP)");
    ("BX.KLT.DINV.WD.GD.ZS", "FDI, net inflows (% of GDP)");
    ("IT.NET.USER.ZS", "Individuals using the Internet (% of population)") ].

(** *** [wb_get_json] *)

Definition RETRYABLE : list Z := [429; 500; 502; 503; 504]%Z.

Definition retryable (status : Z) : bool := existsb (Z.eqb status) RETRYABLE.

(** [r.raise_for_status()]: an [HTTPError] for 4xx and 5xx, nothing
    otherwise. *)
Definition raise_for_status (r : Response) : option Exc :=
  if (400 <=? status_code r)%Z && (status_code r <? 600)%Z
  then Some (HTTPError (status_code r))
  else None.

(** [min(0.8 * (2 ** (attempt - 1)), 6)] *)
Definition backoff (attempt : Z) : Q :=
  Qmin ((8 # 10) * Qpower 2 (attempt - 1)) 6.

Definition get_once (url : string) (params : Params) (timeout_s : Z) : M GetResult :=
  perform (requests_get url params timeout_s) (fun _ => EvGet url params timeout_s).

(** The body of [for attempt in range(1, 3)] with its [try]/[except
    Exception], and the [raise RuntimeError] after the loop.  Whatever is
    raised inside the [try] -- by [requests.get], by [r.json()] or by
    [r.raise_for_status()] -- lands in [last_err], sleeps, and goes on to
    the next attempt. *)
Fixpoint wb_get_json_attempts (attempts : list Z) (last_err : option Exc)
    (url : string) (params : Params) (timeout_s : Z) : M Json :=
  match attempts with
  | [] => raise (RuntimeError last_err)
  | attempt :: rest =>
      g <- get_once url params timeout_s ;;
      match g with
      | Raised e =>
          time_sleep (backoff attempt) ;;
          wb_get_json_attempts rest (Some e) url params timeout_s
      | Responded r =>
          if (status_code r =? 200)%Z then
            match json r with
            | Some body => ret body
            | None =>
                time_sleep (backoff attempt) ;;
                wb_get_json_attempts rest (Some JSONDecodeError) url params timeout_s
            end
          else if retryable (status_code r) then
            time_sleep (backoff attempt) ;;
            wb_get_json_attempts rest last_err url params timeout_s
          else
            match raise_for_status r with
            | Some e =>
                time_sleep (backoff attempt) ;;
                wb_get_json_attempts rest (Some e) url params timeout_s
            | None => wb_get_json_attempts rest last_err url params timeout_s
            end
      end
  end.

Definition wb_get_json_with (url : string) (params : Params) (timeout_s : Z) : M Json :=
  wb_get_json_attempts (range 1 3) None url params timeout_s.

(** [wb_get_json(url, params)] with the default [timeout_s=60]. *)
Definition wb_get_json (url : string) (params : Params) : M Json :=
  wb_get_json_with url params 60.

(** *** Pagination *)

Definition fmt_int (z : Z) : string := NilZero.string_of_int (Z.to_int z).

Definition indicator_url (indicator_codes : list string) : string :=
  WB_BASE +:+ "/country/all/indicator/" +:+ String.concat ";" indicator_codes.

Definition indicator_params (start_year end_year page : Z) : Params :=
  [ ("format", PStr "json");
    ("source", PInt 2);
    ("date", PStr (fmt_int start_year +:+ ":" +:+ fmt_int end_year));
    ("per_page", PInt 20000);
    ("page", PInt page) ].

(** [data[0] if isinstance(data, list) and len(data) > 0 else {}] *)
Definition page_meta (data : Json) : Json :=
  match data with
  | JList (meta :: _) => meta
  | _ => JObj []
  end.

(** [data[1] if isinstance(data, list) and len(data) > 1 else []] *)
Definition page_items (data : Json) : Json :=
  match data with
  | JList (_ :: items :: _) => items
  | _ => JList []
  end.

(** [int(meta.get("page", 1)) >= int(meta.get("pages", 1))] *)
Definition last_page_get (meta : Json) : Outcome bool :=
  obind (obind (get meta "page" (JInt 1)) int) (fun p =>
  obind (obind (get meta "pages" (JInt 1)) int) (fun ps =>
  Ret (ps <=? p)%Z)).

(** The [while True] of [fetch_indicators_long], entered with the current
    [page] and [rows]. *)
Fixpoint fetch_indicators_long_pages (fuel : nat) (url : string)
    (start_year end_year page : Z) (rows : list Json) : M (list Json) :=
  match fuel with
  | O => out_of_fuel
  | S fuel' =>
      data <- wb_get_json url (indicator_params start_year end_year page) ;;
      let meta := page_meta data in
      let items := page_items data in
      if negb (truthy items) then ret rows
      else
        more <- lift (iter items) ;;
        let rows := rows ++ more in
        stop <- lift (last_page_get meta) ;;
        if (stop : bool) then ret rows
        else fetch_indicators_long_pages fuel' url start_year end_year (page + 1) rows
  end.

Definition country_url : string := WB_BASE +:+ "/country".

Definition country_params (page : Z) : Params :=
  [ ("format", PStr "json"); ("per_page", PInt 400); ("page", PInt page) ].

(** [int(meta["page"]) >= int(meta["pages"])] *)
Definition last_page_subscript (meta : Json) : Outcome bool :=
  obind (obind (subscript meta "page") int) (fun p =>
  obind (obind (subscript meta "pages") int) (fun ps =>
  Ret (ps <=? p)%Z)).

(** The [while True] of [fetch_countries_dim]. *)
Fixpoint fetch_countries_dim_pages (fuel : nat) (page : Z) (rows : list Json)
    : M (list Json) :=
  match fuel with
  | O => out_of_fuel
  | S fuel' =>
      data <- wb_get_json country_url (country_params page) ;;
      meta <- lift (index data 0) ;;
      items <- lift (index data 1) ;;
      more <- lift (iter items) ;;
      let rows := rows ++ more in
      stop <- lift (last_page_subscript meta) ;;
      if (stop : bool) then ret rows
      else fetch_countries_dim_pages fuel' (page + 1) rows
  end.

(** *** The indicator normalizer (the rest of [fetch_indicators_long]) *)

Definition rename_indicator : list (string * string) :=
  [ ("countryiso3code", "country_iso3");
    ("country.value", "country_name");
    ("date", "year");
    ("indicator.id", "indicator_code");
    ("indicator.value", "indicator_name");
    ("value", "value") ].

Fixpoint assoc (k : string) (l : list (string * string)) : option string :=
  match l with
  | [] => None
  | (k', v) :: l' => if String.eqb k k' then Some v else assoc k l'
  end.

(** The name of column [c] after [df.rename(columns=rename)]. *)
Definition renamed (c : string) : string :=
  match assoc c rename_indicator with
  | Some c' => c'
  | None => c
  end.

Definition indicator_columns : list string :=
  [ "country_iso3"; "country_name"; "year"; "indicator_code"; "indicator_name"; "value" ].

(** The columns of the normalized frame that carry the name [c] after the
    renaming. *)
Definition sources (df : Frame) (c : string) : list string :=
  List.filter (fun c0 => String.eqb (renamed c0) c) (columns df).

Definition is_nil {A} (l : list A) : bool :=
  match l with [] => true | _ => false end.

(** [df[[...six names...]]] after the renaming: a [KeyError] for the names
    no column carries.  When two columns carry one name (a record with both
    ["date"] and ["year"], say) the selection has more than six columns;
    that case is not modelled.  Otherwise: which column of the normalized
    frame each of the six names reads. *)
Definition select_indicator_columns (df : Frame) : Outcome (list string) :=
  match List.filter (fun c => is_nil (sources df c)) indicator_columns with
  | (_ :: _) as missing => Raise (KeyError missing)
  | [] =>
      traverse (fun c => match sources df c with
                         | [c0] => Ret c0
                         | _ => Unmodelled
                         end) indicator_columns
  end.

(** The row of one record, given its cells of the converted [year] and
    [value] columns. *)
Definition obs_of (srcs : list string) (r : Dict) (year : option Z) (value : PyFloat)
    : Obs.t :=
  let col i := cell r (nth i srcs "") in
  {| Obs.country_iso3 := col 0%nat;
     Obs.country_name := col 1%nat;
     Obs.year := year;
     Obs.indicator_code := col 3%nat;
     Obs.indicator_name := col 4%nat;
     Obs.value := value |}.

(** Lines 91-92: the [year] column through [to_numeric] and
    [astype("Int64")], then the [value] column through [to_numeric]. *)
Definition coerce_indicator (srcs : list string) (recs : list Dict)
    : Outcome (list Obs.t) :=
  obind (to_numeric (column recs (nth 2 srcs ""))) (fun years =>
  obind (astype_Int64 years) (fun years =>
  obind (to_numeric (column recs (nth 5 srcs ""))) (fun values =>
  Ret (zip_with3 (obs_of srcs) recs years values)))).

(** [dropna(subset=["country_iso3", "year", "indicator_code"])] keeps a row
    when none of the three is null. *)
Definition notna_keys (o : Obs.t) : bool :=
  negb (isna (Obs.country_iso3 o))
  && match Obs.year o with Some _ => true | None => false end
  && negb (isna (Obs.indicator_code o)).

Definition fetch_indicators_long_normalize (rows : list Json) : Outcome (list Obs.t) :=
  obind (json_normalize rows) (fun df =>
  obind (select_indicator_columns df) (fun srcs =>
  obind (coerce_indicator srcs (records df)) (fun df =>
  Ret (List.filter notna_keys df)))).

Definition fetch_indicators_long (fuel : nat) (start_year end_year : Z)
    (indicator_codes : list string) : M (list Obs.t) :=
  rows <- fetch_indicators_long_pages fuel (indicator_url indicator_codes)
            start_year end_year 1 [] ;;
  lift (fetch_indicators_long_normalize rows).

(** *** The country-dimension normalizer (the rest of [fetch_countries_dim]) *)

Definition keep_cols : list (string * string) :=
  [ ("id", "country_iso3");
    ("iso2Code", "country_iso2");
    ("name", "country_name");
    ("region.value", "region");
    ("incomeLevel.value", "income_level");
    ("lendingType.value", "lending_type");
    ("capitalCity", "capital_city");
    ("latitude", "capital_lat");
    ("longitude", "capital_lon") ].

(** [df["region.id"].astype(str) != "NA"] on one record. *)
Definition not_aggregate (r : Dict) : bool :=
  negb (String.eqb (str (cell r "region.id")) "NA").

(** The row of one record, given its cells of the converted
    [capital_lat] and [capital_lon] columns. *)
Definition dim_row (r : Dict) (lat lon : PyFloat) : Dim.t :=
  {| Dim.country_iso3 := cell r "id";
     Dim.country_iso2 := cell r "iso2Code";
     Dim.country_name := cell r "name";
     Dim.region := cell r "region.value";
     Dim.income_level := cell r "incomeLevel.value";
     Dim.lending_type := cell r "lendingType.value";
     Dim.capital_city := cell r "capitalCity";
     Dim.capital_lat := lat;
     Dim.capital_lon := lon |}.

Definition fetch_countries_dim_normalize (rows : list Json) : Outcome (list Dim.t) :=
  obind (json_normalize rows) (fun df =>
  if negb (has_column df "region.id") then Raise (KeyError ["region.id"])
  else
    let kept := List.filter not_aggregate (records df) in
    match List.filter (fun c => negb (has_column df c)) (map fst keep_cols) with
    | (_ :: _) as missing => Raise (KeyError missing)
    | [] =>
        obind (to_numeric (column kept "latitude")) (fun lats =>
        obind (to_numeric (column kept "longitude")) (fun lons =>
        Ret (zip_with3 dim_row kept lats lons)))
    end).

Definition fetch_countries_dim (fuel : nat) : M (list Dim.t) :=
  rows <- fetch_countries_dim_pages fuel 1 [] ;;
  lift (fetch_countries_dim_normalize rows).

(** *** Warehouse *)

Definition set_warehouse (wh : gmap string (list Batch)) (st : St) : St :=
  {| world := world st; trace := trace st; warehouse := wh |}.

(** [try: client.get_table(...) except Exception: client.create_table(...)].
    [get_table] raises when the table is not there or when the call itself
    fails; whatever it raises, [create_table] is called, and what that call
    raises -- the service's error, or [Conflict] for a table that is there --
    is not caught. *)
Definition ensure_table (table : string) : M unit := fun st =>
  let '(g, w) := get_table table (world st) in
  match g, warehouse st !! table with
  | None, Some _ => (Ret tt, set_world w st)
  | _, existing =>
      let '(c, w') := create_table table w in
      let st' := log (EvCreateTable table) (set_world w' st) in
      match c, existing with
      | Some e, _ => (Raise e, st')
      | None, Some _ => (Raise (Conflict table), st')
      | None, None => (Ret tt, set_warehouse (<[table := []]> (warehouse st)) st')
      end
  end.

Definition bq_ensure_tables (project_id dataset_id : string) : M (string * string) :=
  let tbl_ind := project_id +:+ "." +:+ dataset_id +:+ ".raw_wb_indicators_long" in
  let tbl_cty := project_id +:+ "." +:+ dataset_id +:+ ".raw_country_dim" in
  ensure_table tbl_ind ;;
  ensure_table tbl_cty ;;
  ret (tbl_ind, tbl_cty).

Definition table_rows (wh : gmap string (list Batch)) (table : string) : list Batch :=
  match wh !! table with
  | Some bs => bs
  | None => []
  end.

(** A [WRITE_APPEND] load job, waited for: it commits the whole batch or
    raises and commits nothing. *)
Definition bq_append_df (table_fqn : string) (df : Batch) : M unit := fun st =>
  let '(r, w) := load_job table_fqn df (world st) in
  match r with
  | None =>
      (Ret tt,
       log (EvLoad table_fqn df true)
         (set_warehouse
            (<[table_fqn := table_rows (warehouse st) table_fqn ++ [df]]> (warehouse st))
            (set_world w st)))
  | Some e => (Raise e, log (EvLoad table_fqn df false) (set_world w st))
  end.

(** *** [main] *)

(** [set(countries["country_iso3"].dropna().astype(str).tolist())] *)
Definition valid_iso3_of (countries : list (Stamped Dim.t)) : gset string :=
  list_to_set
    (map str (List.filter (fun c => negb (isna c))
                (map (fun s => Dim.country_iso3 (row s)) countries))).

(** [ind_df[ind_df["country_iso3"].astype(str).isin(valid_iso3)]] *)
Definition referential_filter (valid_iso3 : gset string) (ind_df : list Obs.t)
    : list Obs.t :=
  List.filter (fun o => bool_decide (str (Obs.country_iso3 o) ∈ valid_iso3)) ind_df.

Definition getenv_or (getenv : string -> option string) (k dflt : string) : string :=
  match getenv k with
  | Some v => v
  | None => dflt
  end.

(** [not os.getenv(k)] *)
Definition env_missing (getenv : string -> option string) (k : string) : bool :=
  match getenv k with
  | Some v => String.eqb v ""
  | None => true
  end.

(** [bigquery.Client(project=project_id)] *)
Definition bigquery_Client (project : string) : M unit := fun st =>
  let '(r, w) := new_client project (world st) in
  (match r with None => Ret tt | Some e => Raise e end, set_world w st).

(** [main()], given the environment as [load_dotenv()] leaves it.  The
    [print] calls are left out. *)
Definition main (fuel : nat) (getenv : string -> option string) : M unit :=
  let project_id := getenv_or getenv "GCP_PROJECT_ID" "" in
  let dataset_raw := getenv_or getenv "BQ_DATASET_RAW" "wb_raw" in
  if env_missing getenv "GCP_PROJECT_ID" then
    raise (ValueError "Missing env var GCP_PROJECT_ID")
  else if env_missing getenv "GOOGLE_APPLICATION_CREDENTIALS" then
    raise (ValueError "Missing env var GOOGLE_APPLICATION_CREDENTIALS (service account JSON path)")
  else
    start_year <- lift (int (JStr (getenv_or getenv "WB_START_YEAR" "2020"))) ;;
    end_year <- lift (int (JStr (getenv_or getenv "WB_END_YEAR" "2025"))) ;;
    run_id <- perform uuid4 EvUuid4 ;;
    load_ts <- perform datetime_now_utc EvNow ;;
    bigquery_Client project_id ;;
    tables <- bq_ensure_tables project_id dataset_raw ;;
    let ind_table := fst tables in
    let cty_table := snd tables in
    countries <- fetch_countries_dim fuel ;;
    let countries := stamp load_ts run_id countries in
    let indicator_codes := map fst INDICATORS in
    ind_df <- fetch_indicators_long fuel start_year end_year indicator_codes ;;
    let valid_iso3 := valid_iso3_of countries in
    let ind_df := referential_filter valid_iso3 ind_df in
    let ind_df := stamp load_ts run_id ind_df in
    bq_append_df cty_table (CountryBatch countries) ;;
    bq_append_df ind_table (IndicatorBatch ind_df) ;;
    ret tt.

End Script.
End Ingest.

(** ** A scripted platform, for running the script on concrete inputs *)

Module Mock.

Definition digits_to_Z (s : string) : option Z :=
  match NilZero.int_of_string s with
  | Some d => Some (Z.of_int d)
  | None => None
  end.

(** Text conversions that read decimal integer literals and nothing else. *)
Definition text : Text :=
  {| int_of_str := digits_to_Z;
     str_of := fun j =>
       match j with
       | JNull => "None"
       | JBool true => "True"
       | JBool false => "False"
       | JInt z => NilZero.string_of_int (Z.to_int z)
       | JFloat NaN => "nan"
       | _ => "<object>"
       end;
     numeric_of_str := fun s =>
       match digits_to_Z s with
       | Some z => NInt z
       | None => NFloat NaN
       end |}.

(** The world counts the requests made so far; [serve url params n] is the
    reply to request number [n]; [accept table] says whether a load job into
    [table] succeeds; [lookup table] and [create table] are the errors of
    the [get_table] and [create_table] calls for [table], if any.  The
    BigQuery client is built. *)
Definition service (serve : string -> Params -> nat -> GetResult)
    (accept : string -> bool) (lookup create : string -> option Exc) : Platform :=
  {| World := nat;
     requests_get := fun url params _ n => (serve url params n, S n);
     uuid4 := fun n => ("3f2a9c1e-0000-4000-8000-000000000001", n);
     datetime_now_utc := fun n => (1762128000%Z, n);
     new_client := fun _ n => (None, n);
     get_table := fun table n => (lookup table, n);
     create_table := fun table n => (create table, n);
     load_job := fun table _ n =>
       (if accept table then None else Some (LoadError table), n) |}.

(** A platform whose BigQuery service answers every [get_table] and
    [create_table] call. *)
Definition platform (serve : string -> Params -> nat -> GetResult)
    (accept : string -> bool) : Platform :=
  service serve accept (fun _ => None) (fun _ => None).

Definition start {PF : Platform} (w : World) : St :=
  {| world := w; trace := []; warehouse := ∅ |}.

Definition status (code : Z) : GetResult :=
  Responded {| status_code := code; json := None |}.

Definition ok (body : Json) : GetResult :=
  Responded {| status_code := 200; json := Some body |}.

(** The [page] parameter of a request. *)
Definition page_of (params : Params) : Z :=
  match List.find (fun kv => String.eqb (fst kv) "page") params with
  | Some (_, PInt p) => p
  | _ => 0
  end.

(** Serve the given page bodies by page number, each with status 200. *)
Definition serve_pages (pages : list Json) : string -> Params -> nat -> GetResult :=
  fun _ params _ =>
    match nth_error pages (Z.to_nat (page_of params - 1)) with
    | Some body => ok body
    | None => status 404
    end.

Definition meta (page pages : Z) : Json :=
  JObj [("page", JInt page); ("pages", JInt pages)].

(** A page body [[{page, pages}, items]]. *)
Definition page (p : Z * Z * list Json) : Json :=
  JList [meta p.1.1 p.1.2; JList p.2].

(** The indicator loop and the country loop against scripted page bodies. *)
Definition indicator_pages (pages : list Json) (fuel : nat) : Outcome (list Json) :=
  (Ingest.fetch_indicators_long_pages (TX := text)
     (PF := platform (serve_pages pages) (fun _ => true))
     fuel (Ingest.indicator_url (map fst Ingest.INDICATORS)) 2020 2025 1 []
     (start (PF := platform (serve_pages pages) (fun _ => true)) 0%nat)).1.

Definition country_pages (pages : list Json) (fuel : nat) : Outcome (list Json) :=
  (Ingest.fetch_countries_dim_pages (TX := text)
     (PF := platform (serve_pages pages) (fun _ => true))
     fuel 1 [] (start (PF := platform (serve_pages pages) (fun _ => true)) 0%nat)).1.

End Mock.

(** ** Reading a run *)

Definition is_get (ev : Event) : bool :=
  match ev with EvGet _ _ _ => true | _ => false end.

(** How many times [requests.get] has been called. *)
Definition attempts_made (tr : list Event) : nat :=
  length (List.filter is_get tr).

(** Only a 200 whose body decodes ends [wb_get_json] after one request. *)
Definition succeeds (g : GetResult) : bool :=
  match g with
  | Responded r =>
      (status_code r =? 200)%Z && match json r with Some _ => true | None => false end
  | Raised _ => false
  end.

(** [carries data p ps items]: the body [data] is a list whose first element
    is a metadata dict reporting page [p] of [ps] and whose second element
    is the list [items]. *)
Definition carries {TX : Text} (data : Json) (p ps : Z) (items : list Json) : Prop :=
  exists meta rest,
    data = JList (JObj meta :: JList items :: rest)
    /\ obind (subscript (JObj meta) "page") int = Ret p
    /\ obind (subscript (JObj meta) "pages") int = Ret ps.

(** [served fetch page st pages st']: from state [st], asking [fetch] for
    [page], [page + 1], ... returns bodies that carry [pages], one after the
    other, and leaves state [st']. *)
Inductive served {TX : Text} {PF : Platform} (fetch : Z -> M Json)
    : Z -> St -> list (Z * Z * list Json) -> St -> Prop :=
| served_nil page st : served fetch page st [] st
| served_cons page st data st1 p ps items rest st2 :
    fetch page st = (Ret data, st1) ->
    carries data p ps items ->
    served fetch (page + 1)%Z st1 rest st2 ->
    served fetch page st ((p, ps, items) :: rest) st2.

Definition all_items (pages : list (Z * Z * list Json)) : list Json :=
  concat (map snd pages).

(** The pagination property as the specification words it, for the
    indicator loop against scripted pages: if the final page reports
    [page >= pages], the loop returns every page's items. *)
Definition returns_all_items (pages : list (Z * Z * list Json)) : Prop :=
  match last pages with
  | Some (p, ps, _) => (ps <= p)%Z
  | None => False
  end ->
  exists fuel,
    Mock.indicator_pages (map Mock.page pages) fuel = Ret (all_items pages).

Definition is_load (ev : Event) : bool :=
  match ev with EvLoad _ _ _ => true | _ => false end.

(** The load jobs of a trace, in order. *)
Definition loads (tr : list Event) : list Event := List.filter is_load tr.

(** Network requests, sleeps and table creation: events that neither load
    rows nor draw a run identifier or a timestamp. *)
Definition quiet (ev : Event) : Prop :=
  match ev with
  | EvGet _ _ _ | EvSleep _ | EvCreateTable _ => True
  | _ => False
  end.



Section Runs.
Context {PF : Platform}.

(** The destination tables hold the same rows in both states. *)
Definition same_tables (st st' : St) : Prop :=
  forall t, Ingest.table_rows (warehouse st') t = Ingest.table_rows (warehouse st) t.

(** From [st] to [st'] only quiet events happened and no table changed. *)
Definition quietly (st st' : St) : Prop :=
  same_tables st st'
  /\ exists evs, trace st' = trace st ++ evs /\ Forall quiet evs.

Definition Quiet {A} (m : M A) : Prop := forall st, quietly st (m st).2.

(** What the state is after a committed append. *)
Definition appended (table : string) (b : Batch) (w : World) (st : St) : St :=
  log (EvLoad table b true)
    (Ingest.set_warehouse
       (<[table := Ingest.table_rows (warehouse st) table ++ [b]]> (warehouse st))
       (set_world w st)).

(** What the state is after a failed append. *)
Definition rejected (table : string) (b : Batch) (w : World) (st : St) : St :=
  log (EvLoad table b false) (set_world w st).

(** The two appends at the end of [main]. *)
Definition main_load (cty_table ind_table : string)
    (countries : list (Stamped Dim.t)) (ind_df : list (Stamped Obs.t)) : M unit :=
  Ingest.bq_append_df cty_table (CountryBatch countries) ;;
  Ingest.bq_append_df ind_table (IndicatorBatch ind_df) ;;
  ret tt.

End Runs.

(** *** Reading a batch of raw records *)

Definition has_key (r : Dict) (c : string) : bool :=
  match dict_get c r with
  | Some _ => true
  | None => false
  end.

(** Some record of the batch has the (flattened) field [c]. *)
Definition batch_has (rows : list Json) (c : string) : Prop :=
  exists row, In row rows /\ has_key (flatten row) c = true.

(** The columns [fetch_countries_dim] reads. *)
Definition country_fields : list string :=
  "region.id" :: map fst Ingest.keep_cols.

(** *** The country dimension, in the specification's words *)







(** ** Closed forms and event shapes *)

(** The body a reply hands back to the caller: a 200 whose body decodes. *)
Definition reply_body (g : GetResult) : option Json :=
  match g with
  | Responded r => if (status_code r =? 200)%Z then json r else None
  | Raised _ => None
  end.

(** What an attempt that did not return leaves in [last_err]: the exception
    raised inside the [try], if any; a status of the retryable set, or a
    status [raise_for_status] lets pass, leaves it as it was. *)
Definition recorded (g : GetResult) (last_err : option Exc) : option Exc :=
  match g with
  | Raised e => Some e
  | Responded r =>
      if (status_code r =? 200)%Z then Some JSONDecodeError
      else if Ingest.retryable (status_code r) then last_err
      else match Ingest.raise_for_status r with
           | Some e => Some e
           | None => last_err
           end
  end.

(** The events one call of [wb_get_json url params] can leave: the same
    request again, or a sleep of 0.8 or 1.6 seconds. *)
Definition transport_event (url : string) (params : Params) (ev : Event) : Prop :=
  match ev with
  | EvGet u p t => u = url /\ p = params /\ t = 60%Z
  | EvSleep d => d = (8 # 10)%Q \/ d = (16 # 10)%Q
  | _ => False
  end.

Definition is_sleep (ev : Event) : bool :=
  match ev with EvSleep _ => true | _ => false end.

Section Emitting.
Context {PF : Platform}.

(** Whatever state [m] starts in, it only adds events that satisfy [P]. *)
Definition Emits {A} (P : Event -> Prop) (m : M A) : Prop :=
  forall st, exists evs, trace (m st).2 = trace st ++ evs /\ Forall P evs.

End Emitting.

(** The three data columns the observation table declares REQUIRED hold a
    value: a country code and an indicator code that are not null, and a year
    that is a 64-bit integer. *)
Definition required_present (o : Obs.t) : Prop :=
  isna (Obs.country_iso3 o) = false
  /\ (exists y, Obs.year o = Some y /\ (int64_min <= y <= int64_max)%Z)
  /\ isna (Obs.indicator_code o) = false.

(** What a pagination loop may leave: a request for some page, from [page]
    on, of its endpoint, or a sleep. *)
Definition requests_from (url : string) (params : Z -> Params) (page : Z)
    (ev : Event) : Prop :=
  match ev with
  | EvGet u p t => u = url /\ t = 60%Z /\ exists q, (page <= q)%Z /\ p = params q
  | EvSleep _ => True
  | _ => False
  end.

(** The requests [main] may send: a page of the country endpoint, or a page
    of the indicator endpoint for the compiled-in codes. *)
Definition wb_request (ev : Event) : Prop :=
  match ev with
  | EvGet u p t =>
      t = 60%Z
      /\ ((u = Ingest.country_url
           /\ exists page, (1 <= page)%Z /\ p = Ingest.country_params page)
          \/ (u = Ingest.indicator_url (map fst Ingest.INDICATORS)
              /\ exists s e page,
                   (1 <= page)%Z /\ p = Ingest.indicator_params s e page))
  | _ => True
  end.

(** A request that is either for the country endpoint or an indicator
    request for the years [s] to [e]. *)
Definition asks_for_years (s e : Z) (ev : Event) : Prop :=
  match ev with
  | EvGet u p _ =>
      u = Ingest.country_url \/ exists page, p = Ingest.indicator_params s e page
  | _ => True
  end.

(** The tables a run may touch, given the project and the dataset: it
    creates the two tables only, loads dimension batches into the dimension
    table only and observation batches into the observation table only. *)
Definition own_tables (project dataset : string) (ev : Event) : Prop :=
  let ind := project +:+ "." +:+ dataset +:+ ".raw_wb_indicators_long" in
  let cty := project +:+ "." +:+ dataset +:+ ".raw_country_dim" in
  match ev with
  | EvCreateTable t => t = ind \/ t = cty
  | EvLoad t (CountryBatch _) _ => t = cty
  | EvLoad t (IndicatorBatch _) _ => t = ind
  | _ => True
  end.

(** ** Scenarios *)

Module Scenario.

Definition always (code : Z) : Platform :=
  Mock.platform (fun _ _ _ => Mock.status code) (fun _ => true).

(** 404 on the first request, then a 200 with body [[]]. *)
Definition not_found_then_ok : Platform :=
  Mock.platform
    (fun _ _ n => match n with O => Mock.status 404 | _ => Mock.ok (JList []) end)
    (fun _ => true).

Definition get_countries (PF : Platform) (w : World) : Outcome Json * St :=
  Ingest.wb_get_json Ingest.country_url (Ingest.country_params 1) (Mock.start w).

(** The body the API sends for a request it rejects: one element. *)
Definition error_body : Json :=
  JList [JObj [("message",
    JList [JObj [("id", JStr "120"); ("key", JStr "Invalid value");
                 ("value", JStr "The provided parameter value is not valid")]])]].

(** An empty items list under metadata without [page]. *)
Definition empty_page_no_meta : Json := JList [JObj []; JList []].

(** Page 1 of 2 is empty, page 2 of 2 has one item. *)
Definition empty_then_item : list (Z * Z * list Json) :=
  [ (1, 2, []); (2, 2, [JStr "x"]) ]%Z.

(** Page 1 already reports itself as the last one. *)
Definition early_last_page : list (Z * Z * list Json) :=
  [ (1, 1, [JStr "a"]); (2, 2, [JStr "b"]) ]%Z.

(** Every request is answered with an empty page 1 of 2. *)
Definition always_empty_page : Platform :=
  Mock.platform (fun _ _ _ => Mock.ok (Mock.page (1, 2, [])%Z)) (fun _ => true).

Definition two_pages : list (Z * Z * list Json) :=
  [ (1, 2, [JStr "a"; JStr "b"]); (2, 2, [JStr "c"]) ]%Z.

(** An observation as the API sends it. *)
Definition observation (fields : Dict) : Json :=
  JObj ([ ("indicator", JObj [("id", JStr "NY.GDP.MKTP.KD.ZG");
                              ("value", JStr "GDP growth (annual %)")]);
          ("country", JObj [("id", JStr "AR"); ("value", JStr "Argentina")]) ]
        ++ fields ++
        [ ("unit", JStr ""); ("obs_status", JStr ""); ("decimal", JInt 1) ]).

(** One observation whose record has no [countryiso3code] field. *)
Definition batch_without_iso3 : list Json :=
  [ observation [("date", JStr "2021"); ("value", JInt 3)] ].

(** The same observation after a well-formed one. *)
Definition batch_with_and_without_iso3 : list Json :=
  observation [("countryiso3code", JStr "ARG"); ("date", JStr "2021"); ("value", JInt 3)]
  :: batch_without_iso3.

(** One observation dated 2020.5 among well-formed ones. *)
Definition batch_with_fractional_year : list Json :=
  [ observation [("countryiso3code", JStr "ARG"); ("date", JStr "2021"); ("value", JInt 3)];
    observation [("countryiso3code", JStr "ARG"); ("date", JFloat (Finite (4041 # 2)));
                 ("value", JInt 3)] ].

(** The year 2^53 + 1, which float64 does not hold, next to a year that is
    not a number. *)
Definition batch_with_large_year : list Json :=
  [ observation [("countryiso3code", JStr "ARG"); ("date", JInt (2 ^ 53 + 1));
                 ("value", JInt 3)];
    observation [("countryiso3code", JStr "ARG"); ("date", JStr "2022Q1");
                 ("value", JInt 3)] ].

(** A well-formed value, an unparseable value, a null country code and an
    unparseable year. *)
Definition mixed_batch : list Json :=
  [ observation [("countryiso3code", JStr "ARG"); ("date", JStr "2021"); ("value", JInt 3)];
    observation [("countryiso3code", JStr "ARG"); ("date", JStr "2022"); ("value", JStr "NaN")];
    observation [("countryiso3code", JNull); ("date", JStr "2022"); ("value", JInt 4)];
    observation [("countryiso3code", JStr "ARG"); ("date", JStr "2022Q1"); ("value", JInt 5)] ].

Definition gdp_growth (y : Z) (v : PyFloat) : Obs.t :=
  {| Obs.country_iso3 := JStr "ARG";
     Obs.country_name := JStr "Argentina";
     Obs.year := Some y;
     Obs.indicator_code := JStr "NY.GDP.MKTP.KD.ZG";
     Obs.indicator_name := JStr "GDP growth (annual %)";
     Obs.value := v |}.

(** A country and an aggregate, as the API sends them. *)
Definition country_item (id iso2 name region_id region capital lat lon : string) : Dict :=
  [ ("id", JStr id); ("iso2Code", JStr iso2); ("name", JStr name);
    ("region", JObj [("id", JStr region_id); ("iso2code", JStr "ZJ");
                     ("value", JStr region)]);
    ("incomeLevel", JObj [("id", JStr "UMC"); ("value", JStr "Upper middle income")]);
    ("lendingType", JObj [("id", JStr "IBD"); ("value", JStr "IBRD")]);
    ("capitalCity", JStr capital); ("longitude", JStr lon); ("latitude", JStr lat) ].

Definition argentina_item : Dict :=
  country_item "ARG" "AR" "Argentina" "LCN" "Latin America & Caribbean" "Buenos Aires"
    "-34" "-58".

Definition arab_world_item : Dict :=
  country_item "ARB" "1A" "Arab World" "NA" "Aggregates" "" "" "".

Definition argentina : Json := JObj argentina_item.

Definition arab_world : Json := JObj arab_world_item.


Definition argentina_row : Dim.t :=
  {| Dim.country_iso3 := JStr "ARG";
     Dim.country_iso2 := JStr "AR";
     Dim.country_name := JStr "Argentina";
     Dim.region := JStr "Latin America & Caribbean";
     Dim.income_level := JStr "Upper middle income";
     Dim.lending_type := JStr "IBRD";
     Dim.capital_city := JStr "Buenos Aires";
     Dim.capital_lat := Finite (-34);
     Dim.capital_lon := Finite (-58) |}.

(** The indicator endpoint answers with an empty items list. *)
Definition no_observations : Platform :=
  Mock.platform (Mock.serve_pages [Mock.page (1, 1, [])%Z]) (fun _ => true).

(** The end-to-end scenario: one page with an aggregate and a country, one
    page with two observations of the country and one of the aggregate. *)
Definition country_page : Json := Mock.page (1, 1, [arab_world; argentina])%Z.

Definition observation_page : Json :=
  Mock.page (1, 1,
    [ observation [("countryiso3code", JStr "ARG"); ("date", JStr "2021"); ("value", JInt 3)];
      observation [("countryiso3code", JStr "ARG"); ("date", JStr "2022"); ("value", JInt 5)];
      observation [("countryiso3code", JStr "ARB"); ("date", JStr "2022"); ("value", JInt 4)] ])%Z.

Definition serve_both (observations : Json) : string -> Params -> nat -> GetResult :=
  fun url _ _ =>
    if String.eqb url Ingest.country_url then Mock.ok country_page
    else Mock.ok observations.

Definition end_to_end (accept : string -> bool) : Platform :=
  Mock.platform (serve_both observation_page) accept.

Definition no_observation_run : Platform :=
  Mock.platform (serve_both (Mock.page (1, 1, [])%Z)) (fun _ => true).

Definition env (k : string) : option string :=
  if String.eqb k "GCP_PROJECT_ID" then Some "lab"
  else if String.eqb k "GOOGLE_APPLICATION_CREDENTIALS" then Some "/secrets/sa.json"
  else None.

(** An environment with nothing set. *)
Definition empty_env (k : string) : option string := None.

Definition cty_table : string := "lab.wb_raw.raw_country_dim".
Definition ind_table : string := "lab.wb_raw.raw_wb_indicators_long".

Definition run_main (PF : Platform) (w : World) : Outcome unit * St :=
  Ingest.main (TX := Mock.text) 5 env (Mock.start w).

Definition stamped {A} (r : A) : Stamped A :=
  {| row := r; load_ts := 1762128000; run_id := "3f2a9c1e-0000-4000-8000-000000000001" |}.

Definition two_pages_platform : Platform :=
  Mock.platform (Mock.serve_pages (map Mock.page two_pages)) (fun _ => true).

(** Both requests fail with an exception. *)
Definition unreachable : Platform :=
  Mock.platform
    (fun _ _ n => Raised (RequestException
                            (match n with O => "timed out" | _ => "refused" end)))
    (fun _ => true).

(** One page of items under metadata that reports neither [page] nor
    [pages]. *)
Definition page_without_counts : Json :=
  JList [JObj [("total", JInt 1)]; JList [JStr "x"]].

(** Every [get_table] call times out. *)
Definition lookup_times_out : Platform :=
  Mock.service (fun _ _ _ => Mock.status 404) (fun _ => true)
    (fun _ => Some (RequestException "timed out")) (fun _ => None).

(** Both destination tables are there; the indicator table holds a batch. *)
Definition both_tables (PF : Platform) (w : World) : St :=
  {| world := w; trace := [];
     warehouse := <[ind_table := [IndicatorBatch []]]> (<[cty_table := []]> ∅) |}.

(** Page 1 of 2 arrives; every later request is answered 503. *)
Definition second_page_fails : Platform :=
  Mock.platform
    (fun _ params _ =>
       if (Mock.page_of params =? 1)%Z
       then Mock.ok (Mock.page (1, 2, [JStr "a"])%Z)
       else Mock.status 503)
    (fun _ => true).

(** The country endpoint answers with an empty last page. *)
Definition no_countries : Platform :=
  Mock.platform (Mock.serve_pages [Mock.page (1, 1, [])%Z]) (fun _ => true).

(** A country item with an identifier and a region and nothing else. *)
Definition bare_country : Json :=
  JObj [("id", JStr "ARG"); ("region", JObj [("id", JStr "LCN")])].

End Scenario.

(** * Properties *)

(** ** Transport *)

Section Transport.
Context {PF : Platform}.

Lemma attempts_made_app tr1 tr2 :
  attempts_made (tr1 ++ tr2) = (attempts_made tr1 + attempts_made tr2)%nat.
Proof. unfold attempts_made. by rewrite List.filter_app, length_app. Qed.

(** Whatever else the first request does -- a retryable status, any other
    status, an exception -- a second request follows. *)
Lemma wb_get_json_second_attempt url params st g w :
  requests_get url params 60 (world st) = (g, w) ->
  succeeds g = false ->
  attempts_made (trace (Ingest.wb_get_json url params st).2)
  = (attempts_made (trace st) + 2)%nat.
Proof.
  intros Hg Hs.
  unfold Ingest.wb_get_json, Ingest.wb_get_json_with. simpl range.
  unfold Ingest.wb_get_json_attempts, Ingest.get_once, perform, time_sleep, bind,
    ret, raise, log, set_world; simpl.
  rewrite Hg; simpl.
  destruct g as [e|r]; simpl in *.
  - destruct (requests_get url params 60 w) as [[e2|r2] w2]; simpl;
      repeat case_match; simpl; rewrite ?attempts_made_app; unfold attempts_made; simpl; lia.
  - destruct (status_code r =? 200)%Z, (json r), (Ingest.retryable (status_code r)),
      (Ingest.raise_for_status r); simpl in *; try discriminate;
      destruct (requests_get url params 60 w) as [[e2|r2] w2]; simpl;
      repeat case_match; simpl; rewrite ?attempts_made_app; unfold attempts_made; simpl; lia.
Qed.

Lemma retryable_not_200 s : Ingest.retryable s = true -> (s =? 200)%Z = false.
Proof.
  intros R. destruct (s =? 200)%Z eqn:E; [|done].
  apply Z.eqb_eq in E. by rewrite E in R.
Qed.

(** X2: two retryable statuses in a row: two requests, then one
    [RuntimeError], with [last_err] still [None]. *)
Lemma wb_get_json_retryable_twice url params st r1 w1 r2 w2 :
  requests_get url params 60 (world st) = (Responded r1, w1) ->
  requests_get url params 60 w1 = (Responded r2, w2) ->
  Ingest.retryable (status_code r1) = true ->
  Ingest.retryable (status_code r2) = true ->
  (Ingest.wb_get_json url params st).1 = Raise (RuntimeError None)
  /\ attempts_made (trace (Ingest.wb_get_json url params st).2)
     = (attempts_made (trace st) + 2)%nat.
Proof.
  intros H1 H2 R1 R2.
  pose proof (retryable_not_200 _ R1) as N1.
  pose proof (retryable_not_200 _ R2) as N2.
  unfold Ingest.wb_get_json, Ingest.wb_get_json_with. simpl range.
  unfold Ingest.wb_get_json_attempts, Ingest.get_once, perform, time_sleep, bind,
    ret, raise, log, set_world; simpl.
  rewrite H1; simpl. rewrite N1, R1; simpl. rewrite H2; simpl.
  rewrite N2, R2; simpl. split; [done|].
  rewrite !attempts_made_app; unfold attempts_made; simpl; lia.
Qed.

(** X1: [wb_get_json] makes one request when the first reply is a 200 whose
    body decodes, and two requests in every other case. *)
Theorem wb_get_json_attempt_count url params st g w
    (Hfirst : requests_get url params 60 (world st) = (g, w)) :
  attempts_made (trace (Ingest.wb_get_json url params st).2)
  = (attempts_made (trace st) + if succeeds g then 1 else 2)%nat.
Proof.
  destruct (succeeds g) eqn:Hs; [|by eapply wb_get_json_second_attempt].
  destruct g as [e|r]; [done|]. simpl in Hs.
  apply andb_true_iff in Hs as [H200 Hjson].
  unfold Ingest.wb_get_json, Ingest.wb_get_json_with. simpl range.
  unfold Ingest.wb_get_json_attempts, Ingest.get_once, perform, bind, ret, log,
    set_world; simpl.
  rewrite Hfirst; simpl. rewrite H200.
  destruct (json r); [|done]. simpl.
  rewrite attempts_made_app. unfold attempts_made; simpl; lia.
Qed.

End Transport.

Lemma wb_get_json_attempt_count_witness :
  attempts_made (trace (Scenario.get_countries (Scenario.always 404) 0%nat).2) = 2%nat
  /\ attempts_made
       (trace (Scenario.get_countries
                 (Mock.platform (fun _ _ _ => Mock.ok (JList [])) (fun _ => true))
                 0%nat).2) = 1%nat.
Proof.
  split.
  - apply (wb_get_json_attempt_count (PF := Scenario.always 404)
             Ingest.country_url (Ingest.country_params 1)
             (Mock.start (PF := Scenario.always 404) 0%nat)
             (Mock.status 404) 1%nat).
    reflexivity.
  - apply (wb_get_json_attempt_count
             (PF := Mock.platform (fun _ _ _ => Mock.ok (JList [])) (fun _ => true))
             Ingest.country_url (Ingest.country_params 1)
             (Mock.start
                (PF := Mock.platform (fun _ _ _ => Mock.ok (JList [])) (fun _ => true))
                0%nat)
             (Mock.ok (JList [])) 1%nat).
    reflexivity.
Defined.

Lemma wb_get_json_retryable_twice_witness :
  (Scenario.get_countries (Scenario.always 503) 0%nat).1 = Raise (RuntimeError None)
  /\ attempts_made (trace (Scenario.get_countries (Scenario.always 503) 0%nat).2)
     = 2%nat.
Proof.
  apply (wb_get_json_retryable_twice (PF := Scenario.always 503)
           Ingest.country_url (Ingest.country_params 1)
           (Mock.start (PF := Scenario.always 503) 0%nat)
           {| status_code := 503; json := None |} 1%nat
           {| status_code := 503; json := None |} 2%nat);
    reflexivity.
Defined.

(** C1, on the code: a 404 is not in the retryable set, yet [wb_get_json]
    makes two requests.  When the second is a 404 too, the failure raised is
    the aggregated [RuntimeError], after the second request; when the second
    is a 200, no failure is raised at all. *)
Theorem wb_get_json_retries_non_retryable_status :
  Ingest.retryable 404 = false
  /\ (Scenario.get_countries (Scenario.always 404) 0%nat).1
     = Raise (RuntimeError (Some (HTTPError 404)))
  /\ attempts_made (trace (Scenario.get_countries (Scenario.always 404) 0%nat).2) = 2%nat
  /\ (Scenario.get_countries Scenario.not_found_then_ok 0%nat).1 = Ret (JList [])
  /\ attempts_made (trace (Scenario.get_countries Scenario.not_found_then_ok 0%nat).2)
     = 2%nat.
Proof. vm_compute. repeat split. Qed.

(** C2, on the code: with a 503 on every request [wb_get_json] makes two
    requests and raises one [RuntimeError]; the error it carries is [None],
    not the 503. *)
Theorem wb_get_json_retryable_exhausted_carries_none :
  Ingest.retryable 503 = true
  /\ (Scenario.get_countries (Scenario.always 503) 0%nat).1 = Raise (RuntimeError None)
  /\ attempts_made (trace (Scenario.get_countries (Scenario.always 503) 0%nat).2) = 2%nat.
Proof. vm_compute. repeat split. Qed.

(** ** Pagination *)

Section Pagination.
Context {TX : Text} {PF : Platform}.

Lemma bind_ret {A B} (m : M A) (k : A -> M B) st a st1 :
  m st = (Ret a, st1) -> bind m k st = k a st1.
Proof. unfold bind. by intros ->. Qed.

(** The empty-page guard of the indicator loop: falsy items end the loop
    with the rows gathered so far, whatever the metadata. *)
Lemma fetch_indicators_long_pages_empty fuel url s e page rows st data st1 :
  Ingest.wb_get_json url (Ingest.indicator_params s e page) st = (Ret data, st1) ->
  truthy (Ingest.page_items data) = false ->
  Ingest.fetch_indicators_long_pages (S fuel) url s e page rows st = (Ret rows, st1).
Proof.
  intros Hget Hitems. simpl. rewrite (bind_ret _ _ _ _ _ Hget).
  by rewrite Hitems.
Qed.

(** A body with fewer than two elements reads as the empty items list. *)
Lemma page_items_short data :
  (forall meta items rest, data <> JList (meta :: items :: rest)) ->
  Ingest.page_items data = JList [].
Proof.
  intros Hshort. destruct data as [| | | | |l|]; try done.
  destruct l as [|m [|i rest]]; try done. by destruct (Hshort m i rest).
Qed.

Lemma fetch_indicators_long_pages_short fuel url s e page rows st data st1 :
  Ingest.wb_get_json url (Ingest.indicator_params s e page) st = (Ret data, st1) ->
  (forall meta items rest, data <> JList (meta :: items :: rest)) ->
  Ingest.fetch_indicators_long_pages (S fuel) url s e page rows st = (Ret rows, st1).
Proof.
  intros Hget Hshort. eapply fetch_indicators_long_pages_empty; [done|].
  by rewrite page_items_short.
Qed.

Lemma carries_last_page_subscript data p ps items :
  carries data p ps items ->
  exists meta rest, data = JList (meta :: JList items :: rest)
    /\ Ingest.last_page_subscript meta = Ret (ps <=? p)%Z
    /\ Ingest.last_page_get meta = Ret (ps <=? p)%Z.
Proof.
  intros (meta & rest & -> & Hp & Hps). exists (JObj meta), rest.
  split; [done|]. unfold Ingest.last_page_subscript, Ingest.last_page_get.
  simpl in *.
  destruct (dict_get "page" meta); [simpl in *|done].
  destruct (dict_get "pages" meta); [simpl in *|done].
  rewrite Hp; simpl. by rewrite Hps.
Qed.

(** The indicator loop over pages of which all but the last are non-empty
    and report [page < pages]. *)
Lemma fetch_indicators_long_pages_served url s e init :
  forall page rows st p ps items st' fuel,
  served (fun n => Ingest.wb_get_json url (Ingest.indicator_params s e n))
    page st (init ++ [(p, ps, items)]) st' ->
  Forall (fun pg => (pg.1.1 < pg.1.2)%Z /\ pg.2 <> []) init ->
  (ps <= p)%Z ->
  (length init < fuel)%nat ->
  Ingest.fetch_indicators_long_pages fuel url s e page rows st
  = (Ret (rows ++ all_items (init ++ [(p, ps, items)])), st').
Proof.
  induction init as [|[[p0 ps0] items0] init IH];
    intros page rows st p ps items st' fuel Hsrv Hinit Hlast Hfuel;
    (destruct fuel as [|fuel]; [simpl in Hfuel; lia|]).
  - inversion Hsrv as [|? ? data st1 ? ? ? ? ? Hget Hc Hrest]; subst.
    inversion Hrest; subst.
    destruct (carries_last_page_subscript _ _ _ _ Hc) as (meta & rest & -> & _ & Hl).
    simpl. rewrite (bind_ret _ _ _ _ _ Hget). simpl.
    unfold all_items; simpl. rewrite app_nil_r.
    destruct items as [|i items]; simpl.
    + by rewrite app_nil_r.
    + unfold bind, lift at 1; simpl. unfold bind, lift; rewrite Hl; simpl.
      by apply Z.leb_le in Hlast as ->.
  - inversion Hsrv as [|? ? data st1 ? ? ? ? ? Hget Hc Hrest]; subst.
    apply Forall_cons in Hinit as [[Hlt Hne] Hinit]. simpl in Hlt, Hne.
    destruct (carries_last_page_subscript _ _ _ _ Hc) as (meta & rest & -> & _ & Hl).
    simpl. rewrite (bind_ret _ _ _ _ _ Hget). simpl.
    destruct items0 as [|i0 items0]; [done|]. simpl.
    unfold bind at 1, lift at 1; simpl. unfold bind at 1, lift at 1; rewrite Hl; simpl.
    apply Z.leb_gt in Hlt as ->.
    rewrite (IH _ _ _ _ _ _ _ _ Hrest Hinit Hlast) by (simpl in Hfuel; lia).
    unfold all_items; simpl. by rewrite <- app_assoc.
Qed.

(** The country loop over pages of which all but the last report
    [page < pages]. *)
Lemma fetch_countries_dim_pages_served init :
  forall page rows st p ps items st' fuel,
  served (fun n => Ingest.wb_get_json Ingest.country_url (Ingest.country_params n))
    page st (init ++ [(p, ps, items)]) st' ->
  Forall (fun pg => (pg.1.1 < pg.1.2)%Z) init ->
  (ps <= p)%Z ->
  (length init < fuel)%nat ->
  Ingest.fetch_countries_dim_pages fuel page rows st
  = (Ret (rows ++ all_items (init ++ [(p, ps, items)])), st').
Proof.
  induction init as [|[[p0 ps0] items0] init IH];
    intros page rows st p ps items st' fuel Hsrv Hinit Hlast Hfuel;
    (destruct fuel as [|fuel]; [simpl in Hfuel; lia|]).
  - inversion Hsrv as [|? ? data st1 ? ? ? ? ? Hget Hc Hrest]; subst.
    inversion Hrest; subst.
    destruct (carries_last_page_subscript _ _ _ _ Hc) as (meta & rest & -> & Hl & _).
    simpl. rewrite (bind_ret _ _ _ _ _ Hget). simpl.
    unfold bind, lift; simpl. rewrite Hl; simpl.
    apply Z.leb_le in Hlast as ->.
    unfold all_items; simpl. by rewrite app_nil_r.
  - inversion Hsrv as [|? ? data st1 ? ? ? ? ? Hget Hc Hrest]; subst.
    apply Forall_cons in Hinit as [Hlt Hinit]. simpl in Hlt.
    destruct (carries_last_page_subscript _ _ _ _ Hc) as (meta & rest & -> & Hl & _).
    simpl. rewrite (bind_ret _ _ _ _ _ Hget). simpl.
    unfold bind at 1, lift at 1; simpl. unfold bind at 1, lift at 1; simpl.
    unfold bind at 1, lift at 1; simpl. unfold bind at 1, lift at 1; rewrite Hl; simpl.
    apply Z.leb_gt in Hlt as ->.
    rewrite (IH _ _ _ _ _ _ _ _ Hrest Hinit Hlast) by (simpl in Hfuel; lia).
    unfold all_items; simpl. by rewrite <- app_assoc.
Qed.

(** One turn of the country loop on a page that is not the last. *)
Lemma fetch_countries_dim_pages_next fuel page rows st meta items rest st1 :
  Ingest.wb_get_json Ingest.country_url (Ingest.country_params page) st
  = (Ret (JList (meta :: JList items :: rest)), st1) ->
  Ingest.last_page_subscript meta = Ret false ->
  Ingest.fetch_countries_dim_pages (S fuel) page rows st
  = Ingest.fetch_countries_dim_pages fuel (page + 1) (rows ++ items) st1.
Proof.
  intros Hget Hl. simpl. rewrite (bind_ret _ _ _ _ _ Hget). simpl.
  unfold bind at 1, lift at 1; simpl. unfold bind at 1, lift at 1; simpl.
  unfold bind at 1, lift at 1; simpl. unfold bind at 1, lift at 1. by rewrite Hl.
Qed.

End Pagination.

(** X3: the indicator loop's guard: a page whose items section is empty (falsy),
    or a body with fewer than two elements, ends the loop without error with
    the rows gathered so far, whatever the metadata says. *)
Theorem fetch_indicators_long_pages_guard {TX : Text} {PF : Platform}
    (fuel : nat) (url : string) (start_year end_year page : Z) (rows : list Json)
    (st st1 : St) (data : Json)
    (Hget : Ingest.wb_get_json url (Ingest.indicator_params start_year end_year page) st
            = (Ret data, st1))
    (Hguard : truthy (Ingest.page_items data) = false
              \/ forall meta items rest, data <> JList (meta :: items :: rest)) :
  Ingest.fetch_indicators_long_pages (S fuel) url start_year end_year page rows st
  = (Ret rows, st1).
Proof.
  destruct Hguard as [Hempty|Hshort].
  - by eapply fetch_indicators_long_pages_empty.
  - by eapply fetch_indicators_long_pages_short.
Qed.

Lemma fetch_indicators_long_pages_guard_witness :
  Mock.indicator_pages [Scenario.error_body] 1 = Ret [].
Proof.
  unfold Mock.indicator_pages.
  erewrite (fetch_indicators_long_pages_guard (TX := Mock.text)
              (PF := Mock.platform (Mock.serve_pages [Scenario.error_body])
                       (fun _ => true)));
    [reflexivity | vm_compute; reflexivity | right; intros meta items rest H;
                                             vm_compute in H; discriminate].
Defined.

(** C3, on the code: the country loop has no empty-page guard.  A body with
    one element makes it raise [IndexError], and an empty items list sends
    it to the metadata, which raises [KeyError] when [page] is not there.
    The indicator loop ends without error on the same bodies. *)
Theorem fetch_countries_dim_pages_unguarded :
  Mock.country_pages [Scenario.error_body] 3 = Raise IndexError
  /\ Mock.country_pages [Scenario.empty_page_no_meta] 3 = Raise (KeyError ["page"])
  /\ Mock.indicator_pages [Scenario.error_body] 3 = Ret []
  /\ Mock.indicator_pages [Scenario.empty_page_no_meta] 3 = Ret [].
Proof. vm_compute. repeat split. Qed.

(** With an empty page that reports [page < pages] the country loop asks for
    the next page, and so on for as long as the server keeps answering so. *)
Lemma fetch_countries_dim_pages_empty_page_goes_on fuel :
  forall page rows st,
  (Ingest.fetch_countries_dim_pages (TX := Mock.text) (PF := Scenario.always_empty_page)
     fuel page rows st).1 = OutOfFuel.
Proof.
  induction fuel as [|fuel IH]; intros page rows st; [done|].
  erewrite (fetch_countries_dim_pages_next (TX := Mock.text)
              (PF := Scenario.always_empty_page));
    [apply IH | reflexivity | reflexivity].
Qed.

(** C4, as stated, fails on the indicator loop: page 1 of 2 is empty and
    page 2 of 2 has an item; the final page reports [page >= pages], but the
    loop stops at page 1 and returns no item. *)
Lemma fetch_indicators_long_pages_stops_at_empty_page :
  Mock.indicator_pages (map Mock.page Scenario.empty_then_item) 2 = Ret []
  /\ all_items Scenario.empty_then_item = [JStr "x"]
  /\ ~ returns_all_items Scenario.empty_then_item.
Proof.
  split; [by vm_compute|]. split; [done|].
  intros Hclaim. destruct Hclaim as [fuel Hfuel]; [simpl; lia|].
  destruct fuel; vm_compute in Hfuel; discriminate.
Qed.

(** The same happens in both loops when a page before the final one already
    reports [page >= pages]. *)
Lemma pagination_stops_at_first_last_page :
  Mock.indicator_pages (map Mock.page Scenario.early_last_page) 2 = Ret [JStr "a"]
  /\ Mock.country_pages (map Mock.page Scenario.early_last_page) 2 = Ret [JStr "a"].
Proof. vm_compute. by split. Qed.

(** C4, amended: when every page before the final one reports
    [page < pages] (and, for the indicator loop, has a non-empty items
    list) and the final page reports [page >= pages], each loop, given as
    much fuel as there are pages, returns the pages' items concatenated in
    order, and leaves the state the last request left. *)
Theorem pagination_returns_all_items {TX : Text} {PF : Platform}
    (init : list (Z * Z * list Json)) (p ps : Z) (items : list Json) (fuel : nat)
    (Hinit : Forall (fun pg => (pg.1.1 < pg.1.2)%Z) init)
    (Hlast : (ps <= p)%Z)
    (Hfuel : (length init < fuel)%nat) :
  (forall url s e st st',
     served (fun n => Ingest.wb_get_json url (Ingest.indicator_params s e n))
       1 st (init ++ [(p, ps, items)]) st' ->
     Forall (fun pg => pg.2 <> []) init ->
     Ingest.fetch_indicators_long_pages fuel url s e 1 [] st
     = (Ret (all_items (init ++ [(p, ps, items)])), st'))
  /\ (forall st st',
     served (fun n => Ingest.wb_get_json Ingest.country_url (Ingest.country_params n))
       1 st (init ++ [(p, ps, items)]) st' ->
     Ingest.fetch_countries_dim_pages fuel 1 [] st
     = (Ret (all_items (init ++ [(p, ps, items)])), st')).
Proof.
  split.
  - intros url s e st st' Hsrv Hne.
    apply (fetch_indicators_long_pages_served url s e init 1 [] st p ps items st' fuel);
      try done.
    apply Forall_forall. intros pg Hpg. split.
    + by apply (proj1 (Forall_forall _ _) Hinit).
    + by apply (proj1 (Forall_forall _ _) Hne).
  - intros st st' Hsrv.
    by apply (fetch_countries_dim_pages_served init 1 [] st p ps items st' fuel).
Qed.

Lemma pagination_returns_all_items_witness :
  (Ingest.fetch_indicators_long_pages (TX := Mock.text) (PF := Scenario.two_pages_platform)
     2 (Ingest.indicator_url (map fst Ingest.INDICATORS)) 2020 2025 1 []
     (Mock.start (PF := Scenario.two_pages_platform) 0%nat)).1
  = Ret [JStr "a"; JStr "b"; JStr "c"]
  /\ (Ingest.fetch_countries_dim_pages (TX := Mock.text) (PF := Scenario.two_pages_platform)
        2 1 [] (Mock.start (PF := Scenario.two_pages_platform) 0%nat)).1
     = Ret [JStr "a"; JStr "b"; JStr "c"].
Proof.
  destruct (pagination_returns_all_items (TX := Mock.text)
              (PF := Scenario.two_pages_platform)
              [(1, 2, [JStr "a"; JStr "b"])%Z] 2 2 [JStr "c"] 2) as [Hind Hcty].
  - repeat constructor.
  - lia.
  - simpl; lia.
  - split.
    + erewrite Hind; [reflexivity| |repeat constructor; discriminate].
      eapply served_cons; [vm_compute; reflexivity| |].
      { eexists _, _. repeat split; reflexivity. }
      eapply served_cons; [vm_compute; reflexivity| |apply served_nil].
      eexists _, _. repeat split; reflexivity.
    + erewrite Hcty; [reflexivity|].
      eapply served_cons; [vm_compute; reflexivity| |].
      { eexists _, _. repeat split; reflexivity. }
      eapply served_cons; [vm_compute; reflexivity| |apply served_nil].
      eexists _, _. repeat split; reflexivity.
Defined.

(** ** Frames *)

Section Frames.

Lemma existsb_eqb_In c (l : list string) : existsb (String.eqb c) l = true <-> In c l.
Proof.
  rewrite existsb_exists. split.
  - intros (x & Hin & Heq). apply String.eqb_eq in Heq. by subst.
  - intros Hin. exists c. split; [done|]. apply String.eqb_refl.
Qed.

Lemma union_keys_In c ks : forall seen,
  In c (union_keys seen ks) <-> In c seen \/ In c ks.
Proof.
  induction ks as [|k ks IH]; intros seen; simpl; [tauto|].
  rewrite IH. destruct (existsb (String.eqb k) seen) eqn:E.
  - apply existsb_eqb_In in E. split; [tauto|].
    intros [?|[<-|?]]; tauto.
  - rewrite in_app_iff. simpl. tauto.
Qed.

Lemma frame_columns_In c recs :
  In c (frame_columns recs) <-> exists r, In r recs /\ In c (dict_keys r).
Proof.
  unfold frame_columns.
  assert (G : forall seen,
    In c (fold_left (fun seen r => union_keys seen (dict_keys r)) recs seen)
    <-> In c seen \/ exists r, In r recs /\ In c (dict_keys r)).
  { induction recs as [|r recs IH]; intros seen; simpl.
    - split; [tauto|]. intros [?|(r & [] & _)]. done.
    - rewrite IH, union_keys_In. split.
      + intros [[?|?]|(r' & ? & ?)]; eauto 6.
      + intros [?|(r' & [<-|?] & ?)]; eauto 6. }
  rewrite G. simpl. split; [intros [[]|?]; done|tauto].
Qed.

Lemma has_key_In r c : has_key r c = true <-> In c (dict_keys r).
Proof.
  unfold has_key, dict_keys. induction r as [|[k v] r IH]; simpl; [split; [done|tauto]|].
  destruct (String.eqb_spec c k) as [->|Hne]; [tauto|].
  rewrite IH. split; [tauto|]. intros [?|?]; [congruence|done].
Qed.

(** A column is in the frame exactly when some record of the batch has the
    field. *)
Lemma batch_has_column rows c :
  batch_has rows c <-> In c (frame_columns (map flatten rows)).
Proof.
  rewrite frame_columns_In. unfold batch_has. split.
  - intros (row & Hin & Hk). exists (flatten row). split; [by apply in_map|].
    by apply has_key_In.
  - intros (r & Hin & Hk). apply in_map_iff in Hin as (row & <- & Hin).
    exists row. split; [done|]. by apply has_key_In.
Qed.


Lemma filter_none {A} (f : A -> bool) (l : list A) :
  (forall x, In x l -> f x = false) -> List.filter f l = [].
Proof.
  induction l as [|x l IH]; intros Hf; [done|]. simpl.
  rewrite (Hf x) by (simpl; auto). apply IH. intros y Hy. apply Hf. simpl; auto.
Qed.

End Frames.

(** ** The numeric columns *)

Section NumericColumns.
Context {TX : Text}.

Lemma zip_with3_In {A B C D} (f : A -> B -> C -> D) d : forall l m n,
  In d (zip_with3 f l m n) ->
  exists a b c, In a l /\ In b m /\ In c n /\ d = f a b c.
Proof.
  induction l as [|a l IH]; intros m n Hd; [done|].
  destruct m as [|b m]; [done|]. destruct n as [|c n]; [done|].
  destruct Hd as [<-|Hd].
  - exists a, b, c. simpl. auto.
  - destruct (IH _ _ Hd) as (a' & b' & c' & Ha & Hb & Hc & ->).
    exists a', b', c'. simpl. auto.
Qed.

Lemma zip_with3_length_le {A B C D} (f : A -> B -> C -> D) : forall l m n,
  (length (zip_with3 f l m n) <= length l)%nat.
Proof.
  induction l as [|a l IH]; intros m n; [done|].
  destruct m as [|b m]; [simpl; lia|]. destruct n as [|c n]; [simpl; lia|].
  simpl. specialize (IH m n). lia.
Qed.







End NumericColumns.

(** A float64 column rounds its integers, an int64 column does not: next
    to a year that is not a number, the year 2^53 + 1 becomes 2^53. *)
Example to_numeric_float64_column :
  to_numeric (TX := Mock.text) [JInt (2 ^ 53 + 1); JStr "2022Q1"]
  = Ret [Finite (inject_Z (2 ^ 53)); NaN]
  /\ to_numeric (TX := Mock.text) [JInt (2 ^ 53 + 1); JStr "2022"]
     = Ret [Finite (inject_Z (2 ^ 53 + 1)); Finite 2022].
Proof. split; by vm_compute. Qed.

(** ** The indicator normalizer *)

(** C5, on the code: a record without the [countryiso3code] field is not
    dropped when no record of the batch has the field -- selecting the
    output columns raises [KeyError] and the whole batch is lost.  After a
    record that has the field, the same record is dropped and the batch goes
    through, which is what the comment at the [dropna] announces. *)
Theorem fetch_indicators_long_normalize_missing_field_aborts :
  Ingest.fetch_indicators_long_normalize (TX := Mock.text) Scenario.batch_without_iso3
  = Raise (KeyError ["country_iso3"])
  /\ Ingest.fetch_indicators_long_normalize (TX := Mock.text)
       Scenario.batch_with_and_without_iso3
     = Ret [Scenario.gdp_growth 2021 (Finite 3)].
Proof. split; by vm_compute. Qed.

(** The year column is float64 as soon as one year is not a number: the
    record dated 2^53 + 1 comes out dated 2^53, and the other is dropped. *)
Example fetch_indicators_long_normalize_rounds_large_year :
  Ingest.fetch_indicators_long_normalize (TX := Mock.text) Scenario.batch_with_large_year
  = Ret [Scenario.gdp_growth (2 ^ 53) (Finite 3)].
Proof. by vm_compute. Qed.

(** A year that is a number but not an integer is not dropped either: the
    cast to [Int64] fails for the whole column. *)
Lemma fetch_indicators_long_normalize_fractional_year_aborts :
  Ingest.fetch_indicators_long_normalize (TX := Mock.text)
    Scenario.batch_with_fractional_year = Raise TypeError.
Proof. by vm_compute. Qed.

(** C9: when the first page of observations has an empty (falsy) items
    section, the loop ends with no rows, the normalized frame has no
    columns, and selecting the six output columns raises [KeyError]:
    [fetch_indicators_long] returns no table. *)
Theorem fetch_indicators_long_no_observations_raises {TX : Text} {PF : Platform}
    (fuel : nat) (start_year end_year : Z) (indicator_codes : list string)
    (st st1 : St) (data : Json)
    (Hget : Ingest.wb_get_json (Ingest.indicator_url indicator_codes)
              (Ingest.indicator_params start_year end_year 1) st = (Ret data, st1))
    (Hempty : truthy (Ingest.page_items data) = false) :
  Ingest.fetch_indicators_long (S fuel) start_year end_year indicator_codes st
  = (Raise (KeyError Ingest.indicator_columns), st1).
Proof.
  unfold Ingest.fetch_indicators_long.
  erewrite bind_ret by (by eapply fetch_indicators_long_pages_empty).
  reflexivity.
Qed.

Lemma fetch_indicators_long_no_observations_raises_witness :
  (Ingest.fetch_indicators_long (TX := Mock.text) (PF := Scenario.no_observations)
     1 2020 2025 (map fst Ingest.INDICATORS)
     (Mock.start (PF := Scenario.no_observations) 0%nat)).1
  = Raise (KeyError ["country_iso3"; "country_name"; "year"; "indicator_code";
                     "indicator_name"; "value"]).
Proof.
  erewrite (fetch_indicators_long_no_observations_raises (TX := Mock.text)
              (PF := Scenario.no_observations));
    [reflexivity | vm_compute; reflexivity | reflexivity].
Defined.

(** ** The country-dimension normalizer *)

Section CountryNormalizer.
Context {TX : Text}.





End CountryNormalizer.




(** ** The referential filter *)

(** C6: the filter keeps an observation row exactly when its country code,
    as text, equals the country code, as text, of some dimension row whose
    code is not null; the rows kept stay in order.  *)
Theorem referential_filter_exact {TX : Text}
    (countries : list (Stamped Dim.t)) (ind_df : list Obs.t) :
  (forall o,
     In o (Ingest.referential_filter (Ingest.valid_iso3_of countries) ind_df)
     <-> In o ind_df
         /\ exists d, In d countries
              /\ isna (Dim.country_iso3 (row d)) = false
              /\ str (Dim.country_iso3 (row d)) = str (Obs.country_iso3 o))
  /\ sublist (Ingest.referential_filter (Ingest.valid_iso3_of countries) ind_df) ind_df.
Proof.
  split.
  - intros o. unfold Ingest.referential_filter, Ingest.valid_iso3_of.
    rewrite filter_In, bool_decide_eq_true, elem_of_list_to_set, list_elem_of_In,
      in_map_iff.
    split.
    + intros (Hin & c & Hstr & Hc). split; [done|].
      apply filter_In in Hc as (Hc & Hna). apply in_map_iff in Hc as (d & <- & Hd).
      exists d. by rewrite negb_true_iff in Hna.
    + intros (Hin & d & Hd & Hna & Hstr). split; [done|].
      exists (Dim.country_iso3 (row d)). split; [done|].
      apply filter_In. split; [|by rewrite Hna].
      apply in_map_iff. by exists d.
  - unfold Ingest.referential_filter.
    induction ind_df as [|o l IH]; simpl; [constructor|].
    case_match; by constructor.
Qed.

(** ** What a run does before it loads *)

Section QuietRuns.
Context {TX : Text} {PF : Platform}.

Lemma quietly_refl st : quietly st st.
Proof. split; [done|]. exists []. by rewrite app_nil_r. Qed.

Lemma quietly_trans st1 st2 st3 :
  quietly st1 st2 -> quietly st2 st3 -> quietly st1 st3.
Proof.
  intros [T12 (e12 & H12 & Q12)] [T23 (e23 & H23 & Q23)]. split.
  - intros t. by rewrite T23, T12.
  - exists (e12 ++ e23). rewrite H23, H12, <- app_assoc. split; [done|].
    by apply Forall_app.
Qed.

Lemma quietly_log ev st : quiet ev -> quietly st (log ev st).
Proof. intros Hq. split; [done|]. exists [ev]. split; [done|]. by constructor. Qed.

Lemma Quiet_ret {A} (a : A) : Quiet (ret a).
Proof. intros st. apply quietly_refl. Qed.

Lemma Quiet_raise {A} e : Quiet (raise (A := A) e).
Proof. intros st. apply quietly_refl. Qed.

Lemma Quiet_lift {A} (o : Outcome A) : Quiet (lift o).
Proof. intros st. apply quietly_refl. Qed.

Lemma Quiet_out_of_fuel {A} : Quiet (out_of_fuel (A := A)).
Proof. intros st. apply quietly_refl. Qed.

Lemma Quiet_bind {A B} (m : M A) (k : A -> M B) :
  Quiet m -> (forall a, Quiet (k a)) -> Quiet (bind m k).
Proof.
  intros Hm Hk st. unfold bind. specialize (Hm st).
  destruct (m st) as [[a|e| |] st1]; simpl in *; try done.
  eapply quietly_trans; [done|]. apply Hk.
Qed.

Lemma Quiet_time_sleep q : Quiet (time_sleep q).
Proof. intros st. by apply quietly_log. Qed.

Lemma Quiet_get_once url params timeout_s :
  Quiet (Ingest.get_once url params timeout_s).
Proof.
  intros st. unfold Ingest.get_once, perform.
  destruct (requests_get url params timeout_s (world st)) as [g w]. simpl.
  split; [done|]. exists [EvGet url params timeout_s]. split; [done|]. by constructor.
Qed.

Lemma Quiet_wb_get_json_attempts attempts : forall last_err url params timeout_s,
  Quiet (Ingest.wb_get_json_attempts attempts last_err url params timeout_s).
Proof.
  induction attempts as [|attempt rest IH]; intros last_err url params timeout_s;
    simpl; [apply Quiet_raise|].
  apply Quiet_bind; [apply Quiet_get_once|].
  intros [e|r]; repeat case_match;
    repeat (first [apply Quiet_ret | apply IH
                  | apply Quiet_bind; [apply Quiet_time_sleep|intros _]]).
Qed.

Lemma Quiet_wb_get_json url params : Quiet (Ingest.wb_get_json url params).
Proof. apply Quiet_wb_get_json_attempts. Qed.

Lemma Quiet_fetch_indicators_long_pages fuel : forall url s e page rows,
  Quiet (Ingest.fetch_indicators_long_pages fuel url s e page rows).
Proof.
  induction fuel as [|fuel IH]; intros url s e page rows; simpl;
    [apply Quiet_out_of_fuel|].
  apply Quiet_bind; [apply Quiet_wb_get_json|]. intros data.
  case_match; [apply Quiet_ret|].
  apply Quiet_bind; [apply Quiet_lift|]. intros more.
  apply Quiet_bind; [apply Quiet_lift|]. intros [|]; [apply Quiet_ret|apply IH].
Qed.

Lemma Quiet_fetch_countries_dim_pages fuel : forall page rows,
  Quiet (Ingest.fetch_countries_dim_pages fuel page rows).
Proof.
  induction fuel as [|fuel IH]; intros page rows; simpl; [apply Quiet_out_of_fuel|].
  apply Quiet_bind; [apply Quiet_wb_get_json|]. intros data.
  apply Quiet_bind; [apply Quiet_lift|]. intros meta.
  apply Quiet_bind; [apply Quiet_lift|]. intros items.
  apply Quiet_bind; [apply Quiet_lift|]. intros more.
  apply Quiet_bind; [apply Quiet_lift|]. intros [|]; [apply Quiet_ret|apply IH].
Qed.

Lemma Quiet_fetch_indicators_long fuel s e codes :
  Quiet (Ingest.fetch_indicators_long fuel s e codes).
Proof.
  apply Quiet_bind; [apply Quiet_fetch_indicators_long_pages|].
  intros rows. apply Quiet_lift.
Qed.

Lemma Quiet_fetch_countries_dim fuel : Quiet (Ingest.fetch_countries_dim fuel).
Proof.
  apply Quiet_bind; [apply Quiet_fetch_countries_dim_pages|].
  intros rows. apply Quiet_lift.
Qed.

Lemma table_rows_insert_nil (wh : gmap string (list Batch)) table t :
  wh !! table = None ->
  Ingest.table_rows (<[table := []]> wh) t = Ingest.table_rows wh t.
Proof.
  intros Hnone. unfold Ingest.table_rows. rewrite lookup_insert.
  case_decide; [subst; by rewrite Hnone|done].
Qed.

Lemma quietly_set_world st w : quietly st (set_world w st).
Proof. split; [done|]. exists []. simpl. by rewrite app_nil_r. Qed.

Lemma quietly_create_table st w table :
  quietly st (log (EvCreateTable table) (set_world w st)).
Proof. split; [done|]. exists [EvCreateTable table]. split; [done|]. by constructor. Qed.

Lemma Quiet_bigquery_Client project : Quiet (Ingest.bigquery_Client project).
Proof.
  intros st. unfold Ingest.bigquery_Client.
  destruct (new_client project (world st)) as [r w]. apply quietly_set_world.
Qed.

Lemma Quiet_ensure_table table : Quiet (Ingest.ensure_table table).
Proof.
  intros st. unfold Ingest.ensure_table.
  destruct (get_table table (world st)) as [g w].
  destruct (create_table table w) as [c w'].
  destruct g as [e|], (warehouse st !! table) as [bs|] eqn:E, c as [e'|]; simpl;
    try apply quietly_set_world; try apply quietly_create_table.
  all: split; [intros t; simpl; by apply table_rows_insert_nil|].
  all: exists [EvCreateTable table]; split; [done|]; by constructor.
Qed.

Lemma Quiet_bq_ensure_tables project_id dataset_id :
  Quiet (Ingest.bq_ensure_tables project_id dataset_id).
Proof.
  unfold Ingest.bq_ensure_tables.
  apply Quiet_bind; [apply Quiet_ensure_table|]. intros _.
  apply Quiet_bind; [apply Quiet_ensure_table|]. intros _.
  apply Quiet_ret.
Qed.

(** What [bq_ensure_tables] returns, when it returns: the two table names,
    the indicator table first. *)
Lemma bq_ensure_tables_ret project_id dataset_id st tables st1 :
  Ingest.bq_ensure_tables project_id dataset_id st = (Ret tables, st1) ->
  tables = (project_id +:+ "." +:+ dataset_id +:+ ".raw_wb_indicators_long",
            project_id +:+ "." +:+ dataset_id +:+ ".raw_country_dim").
Proof.
  unfold Ingest.bq_ensure_tables, bind, ret.
  destruct (Ingest.ensure_table _ st) as [[[]|e| |] st']; try discriminate.
  destruct (Ingest.ensure_table _ st') as [[[]|e| |] st'']; try discriminate.
  by intros [= <- _].
Qed.

End QuietRuns.

(** ** [main] up to the two appends *)

Section MainPrefix.
Context {TX : Text} {PF : Platform}.

Lemma bind_lift {A B} (o : Outcome A) (k : A -> M B) st :
  bind (lift o) k st
  = match o with
    | Ret a => k a st
    | Raise e => (Raise e, st)
    | OutOfFuel => (OutOfFuel, st)
    | Unmodelled => (Unmodelled, st)
    end.
Proof. by destruct o. Qed.

Lemma bind_perform {A B} (op : World -> A * World) (ev : A -> Event)
    (k : A -> M B) st :
  bind (perform op ev) k st
  = k (op (world st)).1 (log (ev (op (world st)).1) (set_world (op (world st)).2 st)).
Proof. unfold bind, perform. by destruct (op (world st)). Qed.

Lemma after_draw st rid ts w1 w2 stX :
  quietly (log (EvNow ts) (set_world w2 (log (EvUuid4 rid) (set_world w1 st)))) stX ->
  same_tables st stX
  /\ exists rest, trace stX = trace st ++ EvUuid4 rid :: EvNow ts :: rest
                  /\ Forall quiet rest.
Proof.
  intros [T (evs & Htr & Hq)]. split; [done|].
  exists evs. split; [|done]. rewrite Htr. simpl.
  by rewrite <- !app_assoc.
Qed.

(** Either [main] stops before the first append -- having changed no table
    and done nothing but, possibly, draw the run identifier and the
    timestamp and then make quiet steps -- or it reaches the two appends
    with both frames stamped with the one identifier and the one timestamp
    it drew. *)
Lemma main_prefix fuel getenv st :
  exists o st',
    Ingest.main fuel getenv st = (o, st')
    /\ ((o <> Ret tt
         /\ same_tables st st'
         /\ exists evs, trace st' = trace st ++ evs
              /\ (evs = []
                  \/ exists rid ts rest,
                       evs = EvUuid4 rid :: EvNow ts :: rest /\ Forall quiet rest))
        \/ (exists rid ts project dataset countries obs stA rest,
              same_tables st stA
              /\ trace stA = trace st ++ EvUuid4 rid :: EvNow ts :: rest
              /\ Forall quiet rest
              /\ (o, st')
                 = main_load (project +:+ "." +:+ dataset +:+ ".raw_country_dim")
                     (project +:+ "." +:+ dataset +:+ ".raw_wb_indicators_long")
                     (stamp ts rid countries) (stamp ts rid obs) stA)).
Proof.
  assert (Hstop : forall (o : Outcome unit),
    o <> Ret tt ->
    exists o' st',
      (o, st) = (o', st')
      /\ ((o' <> Ret tt
           /\ same_tables st st'
           /\ exists evs, trace st' = trace st ++ evs
                /\ (evs = []
                    \/ exists rid ts rest,
                         evs = EvUuid4 rid :: EvNow ts :: rest /\ Forall quiet rest))
          \/ (exists rid ts project dataset countries obs stA rest,
                same_tables st stA
                /\ trace stA = trace st ++ EvUuid4 rid :: EvNow ts :: rest
                /\ Forall quiet rest
                /\ (o', st')
                   = main_load (project +:+ "." +:+ dataset +:+ ".raw_country_dim")
                       (project +:+ "." +:+ dataset +:+ ".raw_wb_indicators_long")
                       (stamp ts rid countries) (stamp ts rid obs) stA))).
  { intros o Ho. exists o, st. split; [done|]. left. split; [done|]. split; [done|].
    exists []. rewrite app_nil_r. split; [done|]. by left. }
  unfold Ingest.main.
  destruct (Ingest.env_missing getenv "GCP_PROJECT_ID"); [by apply Hstop|].
  destruct (Ingest.env_missing getenv "GOOGLE_APPLICATION_CREDENTIALS");
    [by apply Hstop|].
  rewrite bind_lift.
  destruct (int (JStr (Ingest.getenv_or getenv "WB_START_YEAR" "2020")))
    as [start_year|e| |]; try (by apply Hstop).
  rewrite bind_lift.
  destruct (int (JStr (Ingest.getenv_or getenv "WB_END_YEAR" "2025")))
    as [end_year|e| |]; try (by apply Hstop).
  clear Hstop.
  rewrite bind_perform. rewrite bind_perform.
  destruct (uuid4 (world st)) as [rid w1]. simpl fst; simpl snd.
  destruct (datetime_now_utc w1) as [ts w2]. simpl fst; simpl snd.
  set (st2 := log (EvNow ts) (set_world w2 (log (EvUuid4 rid) (set_world w1 st)))).
  set (project := Ingest.getenv_or getenv "GCP_PROJECT_ID" "").
  set (dataset := Ingest.getenv_or getenv "BQ_DATASET_RAW" "wb_raw").
  unfold bind at 1.
  pose proof (Quiet_bigquery_Client project st2) as Q2.
  destruct (Ingest.bigquery_Client project st2) as [[[]|e| |] stC]; simpl in Q2.
  2,3,4: (eexists _, _; split; [reflexivity|]; left; split; [done|];
          destruct (after_draw _ _ _ _ _ _ Q2) as (T & rest & Htr & Hq);
          split; [done|]; eexists; split; [exact Htr|];
          right; by eexists _, _, _).
  unfold bind at 1.
  pose proof (Quiet_bq_ensure_tables project dataset stC) as Q3.
  destruct (Ingest.bq_ensure_tables project dataset stC) as [[tables|e| |] st3] eqn:Etab;
    simpl in Q3; pose proof (quietly_trans _ _ _ Q2 Q3) as Q23.
  2,3,4: (eexists _, _; split; [reflexivity|]; left; split; [done|];
          destruct (after_draw _ _ _ _ _ _ Q23) as (T & rest & Htr & Hq);
          split; [done|]; eexists; split; [exact Htr|];
          right; by eexists _, _, _).
  apply bq_ensure_tables_ret in Etab as ->. cbn [fst snd].
  unfold bind at 1.
  pose proof (Quiet_fetch_countries_dim fuel st3) as Q4.
  destruct (Ingest.fetch_countries_dim fuel st3) as [[countries|e| |] st4];
    simpl in Q4; pose proof (quietly_trans _ _ _ Q23 Q4) as Q34.
  2,3,4: (eexists _, _; split; [reflexivity|]; left; split; [done|];
          destruct (after_draw _ _ _ _ _ _ Q34) as (T & rest & Htr & Hq);
          split; [done|]; eexists; split; [exact Htr|];
          right; by eexists _, _, _).
  unfold bind at 1.
  match goal with
  | |- context [Ingest.fetch_indicators_long ?f ?s ?e ?c st4] =>
      pose proof (Quiet_fetch_indicators_long f s e c st4) as Q5;
      destruct (Ingest.fetch_indicators_long f s e c st4) as [[obs|e'| |] st5]
  end; simpl in Q5; pose proof (quietly_trans _ _ _ Q34 Q5) as Q35;
    destruct (after_draw _ _ _ _ _ _ Q35) as (T & rest & Htr & Hq).
  2,3,4: (eexists _, _; split; [reflexivity|]; left; split; [done|];
          split; [done|]; eexists; split; [exact Htr|];
          right; by eexists _, _, _).
  eexists _, _. split; [apply surjective_pairing|]. right.
  exists rid, ts, project, dataset, countries,
    (Ingest.referential_filter (Ingest.valid_iso3_of (stamp ts rid countries)) obs),
    st5, rest.
  split; [done|]. split; [done|]. split; [done|].
  by rewrite <- surjective_pairing.
Qed.

End MainPrefix.

(** ** The two appends *)

Section MainLoad.
Context {TX : Text} {PF : Platform}.

Lemma append_inj_l (p a b : string) : p +:+ a = p +:+ b -> a = b.
Proof. induction p as [|c p IH]; simpl; [done|]. intros [= H]. by apply IH. Qed.

Lemma table_names_differ (project dataset : string) :
  project +:+ "." +:+ dataset +:+ ".raw_country_dim"
  <> project +:+ "." +:+ dataset +:+ ".raw_wb_indicators_long".
Proof.
  intros H. apply append_inj_l in H. apply (append_inj_l ".") in H.
  apply append_inj_l in H. discriminate.
Qed.

Lemma table_rows_insert_eq (wh : gmap string (list Batch)) t bs :
  Ingest.table_rows (<[t := bs]> wh) t = bs.
Proof. unfold Ingest.table_rows. by rewrite lookup_insert_eq. Qed.

Lemma table_rows_insert_ne (wh : gmap string (list Batch)) t t' bs :
  t <> t' -> Ingest.table_rows (<[t := bs]> wh) t' = Ingest.table_rows wh t'.
Proof. intros Hne. unfold Ingest.table_rows. by rewrite lookup_insert_ne. Qed.

(** The three ways the two appends can go. *)
Lemma main_load_cases cty ind countries obs stA :
  (exists e w,
     main_load cty ind countries obs stA
     = (Raise e, rejected cty (CountryBatch countries) w stA))
  \/ (exists e w w',
     main_load cty ind countries obs stA
     = (Raise e, rejected ind (IndicatorBatch obs) w'
                   (appended cty (CountryBatch countries) w stA)))
  \/ (exists w w',
     main_load cty ind countries obs stA
     = (Ret tt, appended ind (IndicatorBatch obs) w'
                  (appended cty (CountryBatch countries) w stA))).
Proof.
  unfold main_load, bind.
  destruct (Ingest.bq_append_df cty (CountryBatch countries) stA) as [o1 st1] eqn:E1.
  unfold Ingest.bq_append_df in E1.
  destruct (load_job cty (CountryBatch countries) (world stA)) as [[e|] w];
    inversion E1; subst; clear E1.
  - left. by exists e, w.
  - right. fold (appended cty (CountryBatch countries) w stA).
    destruct (Ingest.bq_append_df ind (IndicatorBatch obs)
                (appended cty (CountryBatch countries) w stA)) as [o2 st2] eqn:E2.
    unfold Ingest.bq_append_df in E2.
    destruct (load_job ind (IndicatorBatch obs)
                (world (appended cty (CountryBatch countries) w stA))) as [[e|] w'];
      inversion E2; subst; clear E2.
    + left. by exists e, w, w'.
    + right. by exists w, w'.
Qed.

Lemma loads_quiet evs : Forall quiet evs -> loads evs = [].
Proof.
  induction 1 as [|ev evs Hq _ IH]; [done|]. unfold loads in *. simpl.
  rewrite IH. by destruct ev.
Qed.

Lemma loads_app evs1 evs2 : loads (evs1 ++ evs2) = loads evs1 ++ loads evs2.
Proof. apply List.filter_app. Qed.



End MainLoad.

(** ** Every run of [main] *)

Section MainRuns.
Context {TX : Text} {PF : Platform}.

(** A run of [main] either stops before the first append, or goes through
    one of the three ways the appends can go; in each case: the outcome, the
    final state, and the events of the run. *)
Lemma main_runs fuel getenv st :
  exists o st' evs,
    Ingest.main fuel getenv st = (o, st')
    /\ trace st' = trace st ++ evs
    /\ ((o <> Ret tt
         /\ same_tables st st'
         /\ (evs = []
             \/ exists rid ts rest,
                  evs = EvUuid4 rid :: EvNow ts :: rest /\ Forall quiet rest))
        \/ exists rid ts rest cty ind countries obs stA,
             cty <> ind
             /\ Forall quiet rest
             /\ same_tables st stA
             /\ ((exists e w,
                    o = Raise e
                    /\ st' = rejected cty (CountryBatch (stamp ts rid countries)) w stA
                    /\ evs = EvUuid4 rid :: EvNow ts :: rest
                             ++ [EvLoad cty (CountryBatch (stamp ts rid countries)) false])
                 \/ (exists e w w',
                    o = Raise e
                    /\ st' = rejected ind (IndicatorBatch (stamp ts rid obs)) w'
                               (appended cty (CountryBatch (stamp ts rid countries)) w stA)
                    /\ evs = EvUuid4 rid :: EvNow ts :: rest
                             ++ [EvLoad cty (CountryBatch (stamp ts rid countries)) true;
                                 EvLoad ind (IndicatorBatch (stamp ts rid obs)) false])
                 \/ (exists w w',
                    o = Ret tt
                    /\ st' = appended ind (IndicatorBatch (stamp ts rid obs)) w'
                               (appended cty (CountryBatch (stamp ts rid countries)) w stA)
                    /\ evs = EvUuid4 rid :: EvNow ts :: rest
                             ++ [EvLoad cty (CountryBatch (stamp ts rid countries)) true;
                                 EvLoad ind (IndicatorBatch (stamp ts rid obs)) true]))).
Proof.
  destruct (main_prefix fuel getenv st) as (o & st' & Hmain & [Hstop|Hload]).
  - destruct Hstop as (Ho & T & evs & Htr & Hshape).
    exists o, st', evs. split; [done|]. split; [done|]. by left.
  - destruct Hload as (rid & ts & project & dataset & countries & obs & stA & rest
                       & T & Htr & Hq & Hrun).
    set (cty := project +:+ "." +:+ dataset +:+ ".raw_country_dim") in *.
    set (ind := project +:+ "." +:+ dataset +:+ ".raw_wb_indicators_long") in *.
    assert (Hne : cty <> ind) by apply table_names_differ.
    destruct (main_load_cases cty ind (stamp ts rid countries) (stamp ts rid obs) stA)
      as [(e & w & Hc)|[(e & w & w' & Hc)|(w & w' & Hc)]];
      rewrite Hc in Hrun; inversion Hrun; subst o st'; clear Hrun;
      eexists _, _, _; (split; [exact Hmain|]).
    + split; [|right; exists rid, ts, rest, cty, ind, countries, obs, stA;
               do 3 (split; [done|]); left; by exists e, w].
      simpl. rewrite Htr. by rewrite <- !app_assoc.
    + split; [|right; exists rid, ts, rest, cty, ind, countries, obs, stA;
               do 3 (split; [done|]); right; left; by exists e, w, w'].
      simpl. rewrite Htr. by rewrite <- !app_assoc.
    + split; [|right; exists rid, ts, rest, cty, ind, countries, obs, stA;
               do 3 (split; [done|]); right; right; by exists w, w'].
      simpl. rewrite Htr. by rewrite <- !app_assoc.
Qed.

End MainRuns.

(** ** Provenance and load order *)


(** C10: in every run of [main] the load jobs are, in order: none; or the
    dimension batch alone, rejected; or the dimension batch, committed, and
    then the observation batch.  When the observation append fails, [main]
    raises, the dimension table holds the rows it had plus this run's
    dimension batch, and no other table has changed. *)
Theorem main_appends_dimension_before_observations {TX : Text} {PF : Platform}
    (fuel : nat) (getenv : string -> option string) (st : St) :
  exists evs,
    trace (Ingest.main fuel getenv st).2 = trace st ++ evs
    /\ ((loads evs = []
         /\ (Ingest.main fuel getenv st).1 <> Ret tt
         /\ same_tables st (Ingest.main fuel getenv st).2)
        \/ (exists cty countries e,
              loads evs = [EvLoad cty (CountryBatch countries) false]
              /\ (Ingest.main fuel getenv st).1 = Raise e
              /\ same_tables st (Ingest.main fuel getenv st).2)
        \/ (exists cty ind countries obs e,
              cty <> ind
              /\ loads evs = [EvLoad cty (CountryBatch countries) true;
                              EvLoad ind (IndicatorBatch obs) false]
              /\ (Ingest.main fuel getenv st).1 = Raise e
              /\ Ingest.table_rows (warehouse (Ingest.main fuel getenv st).2) cty
                 = Ingest.table_rows (warehouse st) cty ++ [CountryBatch countries]
              /\ forall t, t <> cty ->
                   Ingest.table_rows (warehouse (Ingest.main fuel getenv st).2) t
                   = Ingest.table_rows (warehouse st) t)
        \/ (exists cty ind countries obs,
              cty <> ind
              /\ loads evs = [EvLoad cty (CountryBatch countries) true;
                              EvLoad ind (IndicatorBatch obs) true]
              /\ (Ingest.main fuel getenv st).1 = Ret tt
              /\ Ingest.table_rows (warehouse (Ingest.main fuel getenv st).2) cty
                 = Ingest.table_rows (warehouse st) cty ++ [CountryBatch countries]
              /\ Ingest.table_rows (warehouse (Ingest.main fuel getenv st).2) ind
                 = Ingest.table_rows (warehouse st) ind ++ [IndicatorBatch obs]
              /\ forall t, t <> cty -> t <> ind ->
                   Ingest.table_rows (warehouse (Ingest.main fuel getenv st).2) t
                   = Ingest.table_rows (warehouse st) t)).
Proof.
  destruct (main_runs fuel getenv st) as (o & st' & evs & -> & Htr & Hcases).
  exists evs. split; [done|]. simpl.
  destruct Hcases as [(Ho & T & Hshape)|Hload].
  - left. split; [|done].
    destruct Hshape as [->|(rid & ts & rest & -> & Hq)]; [done|].
    unfold loads. simpl. by apply loads_quiet.
  - destruct Hload as (rid & ts & rest & cty & ind & countries & obs & stA
                       & Hne & Hq & T & Hways).
    assert (Hl : forall tail,
      loads (EvUuid4 rid :: EvNow ts :: rest ++ tail) = loads tail).
    { intros tail. unfold loads at 1. simpl.
      fold (loads (rest ++ tail)). by rewrite loads_app, (loads_quiet rest Hq). }
    destruct Hways as [(e & w & -> & -> & ->)|[(e & w & w' & -> & -> & ->)
                                              |(w & w' & -> & -> & ->)]].
    + right; left. exists cty, (stamp ts rid countries), e.
      split; [by rewrite Hl|]. split; [done|]. intros t. apply T.
    + right; right; left.
      exists cty, ind, (stamp ts rid countries), (stamp ts rid obs), e.
      split; [done|]. split; [by rewrite Hl|]. split; [done|]. simpl. split.
      * by rewrite table_rows_insert_eq, T.
      * intros t Ht. by rewrite table_rows_insert_ne, T.
    + right; right; right.
      exists cty, ind, (stamp ts rid countries), (stamp ts rid obs).
      split; [done|]. split; [by rewrite Hl|]. split; [done|]. simpl.
      split; [|split].
      * by rewrite table_rows_insert_ne, table_rows_insert_eq, T.
      * rewrite table_rows_insert_eq.
        by rewrite table_rows_insert_ne, T.
      * intros t Hc Hi. by rewrite !table_rows_insert_ne, T.
Qed.

(** ** Runs of [main] on the scripted platform *)

(** The end-to-end scenario of the specification: the dimension table gets
    the one country, the observation table its two observations, and all
    three rows carry the run's identifier and timestamp. *)
Example main_end_to_end :
  let r := Scenario.run_main (Scenario.end_to_end (fun _ => true)) 0%nat in
  r.1 = Ret tt
  /\ Ingest.table_rows (warehouse r.2) Scenario.cty_table
     = [CountryBatch [Scenario.stamped Scenario.argentina_row]]
  /\ Ingest.table_rows (warehouse r.2) Scenario.ind_table
     = [IndicatorBatch [Scenario.stamped (Scenario.gdp_growth 2021 (Finite 3));
                        Scenario.stamped (Scenario.gdp_growth 2022 (Finite 5))]].
Proof. vm_compute. repeat split. Qed.

(** The observation append is rejected: [main] raises and the dimension
    rows stay. *)
Example main_observation_append_fails :
  let r := Scenario.run_main
             (Scenario.end_to_end (fun t => String.eqb t Scenario.cty_table)) 0%nat in
  r.1 = Raise (LoadError Scenario.ind_table)
  /\ Ingest.table_rows (warehouse r.2) Scenario.cty_table
     = [CountryBatch [Scenario.stamped Scenario.argentina_row]]
  /\ Ingest.table_rows (warehouse r.2) Scenario.ind_table = [].
Proof. vm_compute. repeat split. Qed.

(** No observation at all: [main] raises the [KeyError] and loads nothing,
    not even the dimension rows it had ready. *)
Example main_without_observations_aborts :
  let r := Scenario.run_main Scenario.no_observation_run 0%nat in
  r.1 = Raise (KeyError Ingest.indicator_columns)
  /\ loads (trace r.2) = []
  /\ Ingest.table_rows (warehouse r.2) Scenario.cty_table = [].
Proof. vm_compute. repeat split. Qed.

(** ** Configuration *)

(** X4: without a project identifier, or without the credentials path,
    [main] raises [ValueError] at once: no request, no table, no event. *)
Theorem main_missing_configuration {TX : Text} {PF : Platform}
    (fuel : nat) (getenv : string -> option string) (st : St)
    (Hmissing : Ingest.env_missing getenv "GCP_PROJECT_ID" = true
                \/ Ingest.env_missing getenv "GOOGLE_APPLICATION_CREDENTIALS" = true) :
  exists msg, Ingest.main fuel getenv st = (Raise (ValueError msg), st).
Proof.
  unfold Ingest.main.
  destruct (Ingest.env_missing getenv "GCP_PROJECT_ID"); [by eexists|].
  destruct Hmissing as [Hp | ->]; [done|]. by eexists.
Qed.

Lemma main_missing_configuration_witness :
  exists msg,
    Ingest.main (TX := Mock.text) (PF := Scenario.end_to_end (fun _ => true))
      5 Scenario.empty_env (Mock.start (PF := Scenario.end_to_end (fun _ => true)) 0%nat)
    = (Raise (ValueError msg),
       Mock.start (PF := Scenario.end_to_end (fun _ => true)) 0%nat).
Proof.
  apply (main_missing_configuration (TX := Mock.text)
           (PF := Scenario.end_to_end (fun _ => true))).
  left. reflexivity.
Defined.

(** * Further properties of the script *)

(** ** The transport, in closed form *)

Section TransportResult.
Context {PF : Platform}.

(** X5: [wb_get_json] returns a body or raises [RuntimeError]; no other
    exception leaves it -- not the [HTTPError] of [raise_for_status], not
    what [requests.get] or [r.json()] raised. *)
Theorem wb_get_json_raises_only_runtime_error url params st :
  (exists body, (Ingest.wb_get_json url params st).1 = Ret body)
  \/ (exists last_err,
        (Ingest.wb_get_json url params st).1 = Raise (RuntimeError last_err)).
Proof.
  assert (Hgen : forall attempts last_err st0,
    exists o st',
      Ingest.wb_get_json_attempts attempts last_err url params 60 st0 = (o, st')
      /\ ((exists body, o = Ret body) \/ (exists last, o = Raise (RuntimeError last)))).
  { clear st. induction attempts as [|attempt rest IH]; intros last_err st.
    - eexists _, _. split; [reflexivity|]. right. by eexists.
    - simpl. unfold bind at 1, Ingest.get_once, perform.
      destruct (requests_get url params 60 (world st)) as [[e|r] w]; simpl.
      + unfold bind, time_sleep. simpl. apply IH.
      + destruct (status_code r =? 200)%Z.
        * destruct (json r) as [body|].
          { eexists _, _. split; [reflexivity|]. left. by eexists. }
          unfold bind, time_sleep. simpl. apply IH.
        * destruct (Ingest.retryable (status_code r)).
          { unfold bind, time_sleep. simpl. apply IH. }
          destruct (Ingest.raise_for_status r); [|apply IH].
          unfold bind, time_sleep. simpl. apply IH. }
  unfold Ingest.wb_get_json, Ingest.wb_get_json_with.
  destruct (Hgen (range 1 3) None st) as (o & st' & -> & Ho). exact Ho.
Qed.

(** X6: what [wb_get_json] returns is decided by at most two replies: the
    body of the first reply if it is a 200 that decodes; else the body of
    the second if that is; else [RuntimeError] with the last exception an
    attempt raised inside the [try]. *)
Theorem wb_get_json_result url params st :
  (Ingest.wb_get_json url params st).1
  = let first := requests_get url params 60 (world st) in
    let second := requests_get url params 60 first.2 in
    match reply_body first.1 with
    | Some body => Ret body
    | None =>
        match reply_body second.1 with
        | Some body => Ret body
        | None => Raise (RuntimeError (recorded second.1 (recorded first.1 None)))
        end
    end.
Proof.
  unfold Ingest.wb_get_json, Ingest.wb_get_json_with. simpl range.
  unfold Ingest.wb_get_json_attempts, Ingest.get_once, perform, time_sleep, bind,
    ret, raise, log, set_world; simpl.
  destruct (requests_get url params 60 (world st)) as [g1 w1]; simpl.
  destruct g1 as [e1|r1]; simpl.
  - destruct (requests_get url params 60 w1) as [[e2|r2] w2]; simpl; [done|].
    destruct (status_code r2 =? 200)%Z; [by destruct (json r2)|].
    destruct (Ingest.retryable (status_code r2)); [done|].
    by destruct (Ingest.raise_for_status r2).
  - destruct (status_code r1 =? 200)%Z.
    + destruct (json r1); [done|]. simpl.
      destruct (requests_get url params 60 w1) as [[e2|r2] w2]; simpl; [done|].
      destruct (status_code r2 =? 200)%Z; [by destruct (json r2)|].
      destruct (Ingest.retryable (status_code r2)); [done|].
      by destruct (Ingest.raise_for_status r2).
    + destruct (Ingest.retryable (status_code r1)); simpl.
      * destruct (requests_get url params 60 w1) as [[e2|r2] w2]; simpl; [done|].
        destruct (status_code r2 =? 200)%Z; [by destruct (json r2)|].
        destruct (Ingest.retryable (status_code r2)); [done|].
        by destruct (Ingest.raise_for_status r2).
      * destruct (Ingest.raise_for_status r1); simpl;
          (destruct (requests_get url params 60 w1) as [[e2|r2] w2]; simpl; [done|];
           destruct (status_code r2 =? 200)%Z; [by destruct (json r2)|];
           destruct (Ingest.retryable (status_code r2)); [done|];
           by destruct (Ingest.raise_for_status r2)).
Qed.

End TransportResult.

(** ** What a call of the transport leaves behind *)

Section TransportEvents.
Context {PF : Platform}.

Lemma backoff_first : Ingest.backoff 1 = (8 # 10)%Q.
Proof. reflexivity. Qed.

Lemma backoff_second : Ingest.backoff 2 = (16 # 10)%Q.
Proof. reflexivity. Qed.

(** The cap of 6 seconds holds for every attempt number, and is not reached
    by the two attempts the loop makes. *)
Lemma backoff_capped attempt : (Ingest.backoff attempt <= 6)%Q.
Proof. unfold Ingest.backoff. apply Q.le_min_r. Qed.

Ltac transport_trace :=
  simpl; rewrite <- ?app_assoc; simpl;
  eexists; split; [reflexivity|];
  split; [repeat constructor; auto|];
  split; [reflexivity|]; simpl; lia.

(** X7: one call of [wb_get_json url params] leaves only requests for that
    very [url] and [params] with timeout 60, and sleeps of 0.8 s (after the
    first attempt) or 1.6 s (after the second): at most two of each.  It
    touches no table. *)
Theorem wb_get_json_events url params st :
  exists evs,
    trace (Ingest.wb_get_json url params st).2 = trace st ++ evs
    /\ Forall (transport_event url params) evs
    /\ warehouse (Ingest.wb_get_json url params st).2 = warehouse st
    /\ (length (List.filter is_sleep evs) <= attempts_made evs <= 2)%nat.
Proof.
  unfold Ingest.wb_get_json, Ingest.wb_get_json_with.
  change (range 1 3) with [1; 2]%Z.
  unfold Ingest.wb_get_json_attempts, Ingest.get_once, perform, time_sleep, bind,
    ret, raise, log, set_world, attempts_made; simpl.
  rewrite backoff_first, backoff_second.
  destruct (requests_get url params 60 (world st)) as [g1 w1]; simpl.
  destruct g1 as [e1|r1]; simpl.
  - destruct (requests_get url params 60 w1) as [[e2|r2] w2]; simpl;
      [transport_trace|].
    destruct (status_code r2 =? 200)%Z; [destruct (json r2); transport_trace|].
    destruct (Ingest.retryable (status_code r2)); [transport_trace|].
    destruct (Ingest.raise_for_status r2); transport_trace.
  - destruct (status_code r1 =? 200)%Z.
    + destruct (json r1); [transport_trace|]. simpl.
      destruct (requests_get url params 60 w1) as [[e2|r2] w2]; simpl;
        [transport_trace|].
      destruct (status_code r2 =? 200)%Z; [destruct (json r2); transport_trace|].
      destruct (Ingest.retryable (status_code r2)); [transport_trace|].
      destruct (Ingest.raise_for_status r2); transport_trace.
    + destruct (Ingest.retryable (status_code r1)); simpl.
      * destruct (requests_get url params 60 w1) as [[e2|r2] w2]; simpl;
          [transport_trace|].
        destruct (status_code r2 =? 200)%Z; [destruct (json r2); transport_trace|].
        destruct (Ingest.retryable (status_code r2)); [transport_trace|].
        destruct (Ingest.raise_for_status r2); transport_trace.
      * destruct (Ingest.raise_for_status r1); simpl;
          (destruct (requests_get url params 60 w1) as [[e2|r2] w2]; simpl;
           [transport_trace|];
           destruct (status_code r2 =? 200)%Z; [destruct (json r2); transport_trace|];
           destruct (Ingest.retryable (status_code r2)); [transport_trace|];
           destruct (Ingest.raise_for_status r2); transport_trace).
Qed.

End TransportEvents.

Section TransportSleeps.
Context {PF : Platform}.

(** X8: when both requests raise, [wb_get_json] sleeps after the second
    attempt as well -- 0.8 s and then 1.6 s, 2.4 s in all -- and only then
    raises [RuntimeError] with the second exception. *)
Theorem wb_get_json_sleeps_before_raising url params st e1 w1 e2 w2
    (Hfirst : requests_get url params 60 (world st) = (Raised e1, w1))
    (Hsecond : requests_get url params 60 w1 = (Raised e2, w2)) :
  Ingest.wb_get_json url params st
  = (Raise (RuntimeError (Some e2)),
     {| world := w2;
        trace := trace st ++ [EvGet url params 60; EvSleep (8 # 10);
                              EvGet url params 60; EvSleep (16 # 10)];
        warehouse := warehouse st |}).
Proof.
  unfold Ingest.wb_get_json, Ingest.wb_get_json_with.
  change (range 1 3) with [1; 2]%Z.
  unfold Ingest.wb_get_json_attempts, Ingest.get_once, perform, time_sleep, bind,
    ret, raise, log, set_world; simpl.
  rewrite Hfirst; simpl. rewrite Hsecond; simpl.
  rewrite backoff_first, backoff_second. by rewrite <- !app_assoc.
Qed.

(** One call adds one request or two. *)
Lemma wb_get_json_one_or_two url params st :
  (attempts_made (trace st) + 1
   <= attempts_made (trace (Ingest.wb_get_json url params st).2)
   <= attempts_made (trace st) + 2)%nat.
Proof.
  destruct (requests_get url params 60 (world st)) as [g w] eqn:Hg.
  destruct (succeeds g) eqn:Hs.
  - destruct g as [e|r]; [done|]. simpl in Hs.
    apply andb_true_iff in Hs as [H200 Hjson].
    unfold Ingest.wb_get_json, Ingest.wb_get_json_with. simpl range.
    unfold Ingest.wb_get_json_attempts, Ingest.get_once, perform, bind, ret, log,
      set_world; simpl.
    rewrite Hg; simpl. rewrite H200.
    destruct (json r); [|done]. simpl.
    rewrite attempts_made_app. unfold attempts_made; simpl; lia.
  - rewrite (wb_get_json_second_attempt url params st g w Hg Hs). lia.
Qed.

End TransportSleeps.

Lemma wb_get_json_sleeps_before_raising_witness :
  trace (Scenario.get_countries Scenario.unreachable 0%nat).2
  = [EvGet Ingest.country_url (Ingest.country_params 1) 60; EvSleep (8 # 10);
     EvGet Ingest.country_url (Ingest.country_params 1) 60; EvSleep (16 # 10)]
  /\ (Scenario.get_countries Scenario.unreachable 0%nat).1
     = Raise (RuntimeError (Some (RequestException "refused"))).
Proof.
  unfold Scenario.get_countries.
  rewrite (wb_get_json_sleeps_before_raising (PF := Scenario.unreachable)
             Ingest.country_url (Ingest.country_params 1)
             (Mock.start (PF := Scenario.unreachable) 0%nat)
             (RequestException "timed out") 1%nat
             (RequestException "refused") 2%nat);
    [split; reflexivity | reflexivity | reflexivity].
Defined.

(** ** More on the two loops *)

Section PaginationEdges.
Context {TX : Text} {PF : Platform}.

(** X9: in the indicator loop, a page with items whose metadata has neither
    [page] nor [pages] counts as page 1 of 1: the loop takes its items and
    stops, without asking for another page. *)
Theorem fetch_indicators_long_pages_default_metadata
    (fuel : nat) (url : string) (start_year end_year page : Z) (rows : list Json)
    (st st1 : St) (meta : Dict) (items rest : list Json)
    (Hget : Ingest.wb_get_json url (Ingest.indicator_params start_year end_year page) st
            = (Ret (JList (JObj meta :: JList items :: rest)), st1))
    (Hitems : items <> [])
    (Hpage : dict_get "page" meta = None)
    (Hpages : dict_get "pages" meta = None) :
  Ingest.fetch_indicators_long_pages (S fuel) url start_year end_year page rows st
  = (Ret (rows ++ items), st1).
Proof.
  simpl. rewrite (bind_ret _ _ _ _ _ Hget). simpl.
  destruct items as [|i items]; [done|]. simpl.
  unfold bind, lift, Ingest.last_page_get. simpl. by rewrite Hpage, Hpages.
Qed.

(** A failure of the transport after some pages ends the indicator loop with
    that failure. *)
Lemma fetch_indicators_long_pages_fails url s e init :
  forall page rows st st1 st2 err fuel,
  served (fun n => Ingest.wb_get_json url (Ingest.indicator_params s e n))
    page st init st1 ->
  Forall (fun pg => (pg.1.1 < pg.1.2)%Z /\ pg.2 <> []) init ->
  Ingest.wb_get_json url (Ingest.indicator_params s e (page + Z.of_nat (length init))) st1
  = (Raise err, st2) ->
  (length init < fuel)%nat ->
  Ingest.fetch_indicators_long_pages fuel url s e page rows st = (Raise err, st2).
Proof.
  induction init as [|[[p0 ps0] items0] init IH];
    intros page rows st st1 st2 err fuel Hsrv Hinit Hfail Hfuel;
    (destruct fuel as [|fuel]; [simpl in Hfuel; lia|]).
  - inversion Hsrv; subst. simpl in Hfail. rewrite Z.add_0_r in Hfail.
    simpl. unfold bind. by rewrite Hfail.
  - inversion Hsrv as [|? ? data stm ? ? ? ? ? Hget Hc Hrest]; subst.
    apply Forall_cons in Hinit as [[Hlt Hne] Hinit]. simpl in Hlt, Hne.
    destruct (carries_last_page_subscript _ _ _ _ Hc) as (meta & rest & -> & _ & Hl).
    simpl. rewrite (bind_ret _ _ _ _ _ Hget). simpl.
    destruct items0 as [|i0 items0]; [done|]. simpl.
    unfold bind at 1, lift at 1; simpl. unfold bind at 1, lift at 1; rewrite Hl; simpl.
    apply Z.leb_gt in Hlt as ->.
    eapply IH; [exact Hrest|exact Hinit| |simpl in Hfuel; lia].
    rewrite <- Hfail. f_equal. f_equal. simpl length. lia.
Qed.

Lemma fetch_countries_dim_pages_fails init :
  forall page rows st st1 st2 err fuel,
  served (fun n => Ingest.wb_get_json Ingest.country_url (Ingest.country_params n))
    page st init st1 ->
  Forall (fun pg => (pg.1.1 < pg.1.2)%Z) init ->
  Ingest.wb_get_json Ingest.country_url
    (Ingest.country_params (page + Z.of_nat (length init))) st1
  = (Raise err, st2) ->
  (length init < fuel)%nat ->
  Ingest.fetch_countries_dim_pages fuel page rows st = (Raise err, st2).
Proof.
  induction init as [|[[p0 ps0] items0] init IH];
    intros page rows st st1 st2 err fuel Hsrv Hinit Hfail Hfuel;
    (destruct fuel as [|fuel]; [simpl in Hfuel; lia|]).
  - inversion Hsrv; subst. simpl in Hfail. rewrite Z.add_0_r in Hfail.
    simpl. unfold bind. by rewrite Hfail.
  - inversion Hsrv as [|? ? data stm ? ? ? ? ? Hget Hc Hrest]; subst.
    apply Forall_cons in Hinit as [Hlt Hinit]. simpl in Hlt.
    destruct (carries_last_page_subscript _ _ _ _ Hc) as (meta & rest & -> & Hl & _).
    apply Z.leb_gt in Hlt. rewrite Hlt in Hl.
    rewrite (fetch_countries_dim_pages_next _ _ _ _ _ _ _ _ Hget Hl).
    eapply IH; [exact Hrest|exact Hinit| |simpl in Hfuel; lia].
    rewrite <- Hfail. f_equal. f_equal. simpl length. lia.
Qed.

End PaginationEdges.

Lemma fetch_indicators_long_pages_default_metadata_witness :
  Mock.indicator_pages [Scenario.page_without_counts] 1 = Ret [JStr "x"].
Proof.
  unfold Mock.indicator_pages.
  erewrite (fetch_indicators_long_pages_default_metadata (TX := Mock.text)
              (PF := Mock.platform (Mock.serve_pages [Scenario.page_without_counts])
                       (fun _ => true))
              0 _ 2020 2025 1 [] _ _ [("total", JInt 1)] [JStr "x"] []);
    [reflexivity | vm_compute; reflexivity | discriminate
    | reflexivity | reflexivity].
Defined.

(** X10: a fetch failure is fatal for the whole pagination: when the
    transport raises after some pages have arrived, each loop raises that
    same failure -- the rows gathered so far are not returned. *)
Theorem pagination_fails_with_transport {TX : Text} {PF : Platform}
    (init : list (Z * Z * list Json)) (err : Exc) (fuel : nat)
    (Hinit : Forall (fun pg => (pg.1.1 < pg.1.2)%Z) init)
    (Hfuel : (length init < fuel)%nat) :
  (forall url s e st st1 st2,
     served (fun n => Ingest.wb_get_json url (Ingest.indicator_params s e n))
       1 st init st1 ->
     Forall (fun pg => pg.2 <> []) init ->
     Ingest.wb_get_json url
       (Ingest.indicator_params s e (1 + Z.of_nat (length init))) st1
     = (Raise err, st2) ->
     Ingest.fetch_indicators_long_pages fuel url s e 1 [] st = (Raise err, st2))
  /\ (forall st st1 st2,
     served (fun n => Ingest.wb_get_json Ingest.country_url (Ingest.country_params n))
       1 st init st1 ->
     Ingest.wb_get_json Ingest.country_url
       (Ingest.country_params (1 + Z.of_nat (length init))) st1
     = (Raise err, st2) ->
     Ingest.fetch_countries_dim_pages fuel 1 [] st = (Raise err, st2)).
Proof.
  split.
  - intros url s e st st1 st2 Hsrv Hne Hfail.
    eapply fetch_indicators_long_pages_fails; try done.
    apply Forall_forall. intros pg Hpg. split.
    + by apply (proj1 (Forall_forall _ _) Hinit).
    + by apply (proj1 (Forall_forall _ _) Hne).
  - intros st st1 st2 Hsrv Hfail.
    by eapply fetch_countries_dim_pages_fails.
Qed.

Lemma pagination_fails_with_transport_witness :
  (Ingest.fetch_indicators_long_pages (TX := Mock.text) (PF := Scenario.second_page_fails)
     3 (Ingest.indicator_url (map fst Ingest.INDICATORS)) 2020 2025 1 []
     (Mock.start (PF := Scenario.second_page_fails) 0%nat)).1
  = Raise (RuntimeError None)
  /\ (Ingest.fetch_countries_dim_pages (TX := Mock.text) (PF := Scenario.second_page_fails)
        3 1 [] (Mock.start (PF := Scenario.second_page_fails) 0%nat)).1
     = Raise (RuntimeError None).
Proof.
  destruct (pagination_fails_with_transport (TX := Mock.text)
              (PF := Scenario.second_page_fails)
              [(1, 2, [JStr "a"])%Z] (RuntimeError None) 3) as [Hind Hcty].
  - repeat constructor.
  - simpl; lia.
  - split.
    + erewrite Hind; [reflexivity| |repeat constructor; discriminate
                     |vm_compute; reflexivity].
      eapply served_cons; [vm_compute; reflexivity| |apply served_nil].
      eexists _, _. repeat split; reflexivity.
    + erewrite Hcty; [reflexivity| |vm_compute; reflexivity].
      eapply served_cons; [vm_compute; reflexivity| |apply served_nil].
      eexists _, _. repeat split; reflexivity.
Defined.

Section PaginationCost.
Context {TX : Text} {PF : Platform}.

Lemma served_attempts url (params : Z -> Params) pages :
  forall page st st',
  served (fun n => Ingest.wb_get_json url (params n)) page st pages st' ->
  (attempts_made (trace st) + length pages
   <= attempts_made (trace st')
   <= attempts_made (trace st) + 2 * length pages)%nat.
Proof.
  induction pages as [|pg pages IH]; intros page st st' Hsrv.
  - inversion Hsrv; subst. simpl. lia.
  - inversion Hsrv as [|? ? data st1 ? ? ? ? ? Hget Hc Hrest]; subst.
    specialize (IH _ _ _ Hrest).
    pose proof (wb_get_json_one_or_two url (params page) st) as H12.
    rewrite Hget in H12. simpl in H12. simpl length. lia.
Qed.

End PaginationCost.

(** X11: fetching [n] pages costs at least [n] and at most [2 n] requests, in
    either loop: every page is asked for once, and once more when the first
    attempt did not return it. *)
Theorem pagination_request_count {TX : Text} {PF : Platform}
    (init : list (Z * Z * list Json)) (p ps : Z) (items : list Json) (fuel : nat)
    (Hinit : Forall (fun pg => (pg.1.1 < pg.1.2)%Z) init)
    (Hlast : (ps <= p)%Z)
    (Hfuel : (length init < fuel)%nat) :
  (forall url s e st st',
     served (fun n => Ingest.wb_get_json url (Ingest.indicator_params s e n))
       1 st (init ++ [(p, ps, items)]) st' ->
     Forall (fun pg => pg.2 <> []) init ->
     (attempts_made (trace st) + S (length init)
      <= attempts_made
           (trace (Ingest.fetch_indicators_long_pages fuel url s e 1 [] st).2)
      <= attempts_made (trace st) + 2 * S (length init))%nat)
  /\ (forall st st',
     served (fun n => Ingest.wb_get_json Ingest.country_url (Ingest.country_params n))
       1 st (init ++ [(p, ps, items)]) st' ->
     (attempts_made (trace st) + S (length init)
      <= attempts_made (trace (Ingest.fetch_countries_dim_pages fuel 1 [] st).2)
      <= attempts_made (trace st) + 2 * S (length init))%nat).
Proof.
  split.
  - intros url s e st st' Hsrv Hne.
    rewrite (fetch_indicators_long_pages_served url s e init 1 [] st p ps items st' fuel);
      try done.
    + pose proof (served_attempts _ _ _ _ _ _ Hsrv) as H.
      rewrite length_app in H. simpl in *. lia.
    + apply Forall_forall. intros pg Hpg. split.
      * by apply (proj1 (Forall_forall _ _) Hinit).
      * by apply (proj1 (Forall_forall _ _) Hne).
  - intros st st' Hsrv.
    rewrite (fetch_countries_dim_pages_served init 1 [] st p ps items st' fuel);
      try done.
    pose proof (served_attempts _ _ _ _ _ _ Hsrv) as H.
    rewrite length_app in H. simpl in *. lia.
Qed.

Lemma pagination_request_count_witness :
  (2 <= attempts_made
          (trace (Ingest.fetch_countries_dim_pages (TX := Mock.text)
                    (PF := Scenario.two_pages_platform) 2 1 []
                    (Mock.start (PF := Scenario.two_pages_platform) 0%nat)).2)
     <= 4)%nat.
Proof.
  destruct (pagination_request_count (TX := Mock.text)
              (PF := Scenario.two_pages_platform)
              [(1, 2, [JStr "a"; JStr "b"])%Z] 2 2 [JStr "c"] 2) as [_ Hcty].
  - repeat constructor.
  - lia.
  - simpl; lia.
  - eapply (Hcty (Mock.start (PF := Scenario.two_pages_platform) 0%nat)).
    eapply served_cons; [vm_compute; reflexivity| |].
    { eexists _, _. repeat split; reflexivity. }
    eapply served_cons; [vm_compute; reflexivity| |apply served_nil].
    eexists _, _. repeat split; reflexivity.
Defined.

(** X12: when the country endpoint's first page is the last and has no item,
    [fetch_countries_dim] returns no table: the frame has no column and
    reading [region.id] raises [KeyError]. *)
Theorem fetch_countries_dim_no_items_raises {TX : Text} {PF : Platform}
    (fuel : nat) (st st1 : St) (data : Json) (p ps : Z)
    (Hget : Ingest.wb_get_json Ingest.country_url (Ingest.country_params 1) st
            = (Ret data, st1))
    (Hpage : carries data p ps [])
    (Hlast : (ps <= p)%Z) :
  Ingest.fetch_countries_dim (S fuel) st = (Raise (KeyError ["region.id"]), st1).
Proof.
  unfold Ingest.fetch_countries_dim.
  erewrite bind_ret.
  2: { apply (fetch_countries_dim_pages_served [] 1 [] st p ps [] st1 (S fuel));
       [|constructor|done|simpl; lia].
       eapply served_cons; [exact Hget|exact Hpage|apply served_nil]. }
  reflexivity.
Qed.

Lemma fetch_countries_dim_no_items_raises_witness :
  (Ingest.fetch_countries_dim (TX := Mock.text) (PF := Scenario.no_countries) 1
     (Mock.start (PF := Scenario.no_countries) 0%nat)).1
  = Raise (KeyError ["region.id"]).
Proof.
  erewrite (fetch_countries_dim_no_items_raises (TX := Mock.text)
              (PF := Scenario.no_countries) 0
              (Mock.start (PF := Scenario.no_countries) 0%nat) _ _ 1 1);
    [reflexivity | vm_compute; reflexivity | | lia].
  eexists _, _. repeat split; reflexivity.
Defined.

(** ** What the indicator normalizer guarantees on every input *)

Section NormalizerInvariant.
Context {TX : Text}.

Lemma traverse_Forall2 {A B} (f : A -> Outcome B) (l : list A) :
  forall l', traverse f l = Ret l' -> Forall2 (fun x y => f x = Ret y) l l'.
Proof.
  induction l as [|x l IH]; intros l' Hl'; simpl in Hl'.
  - inversion Hl'. constructor.
  - destruct (f x) as [y| | |] eqn:Hx; simpl in Hl'; try discriminate.
    destruct (traverse f l) as [ys| | |]; simpl in Hl'; try discriminate.
    inversion Hl'; subst. constructor; [done|]. by apply IH.
Qed.

Lemma Forall2_In_r {A B} (P : A -> B -> Prop) l l' y :
  Forall2 P l l' -> In y l' -> exists x, In x l /\ P x y.
Proof.
  induction 1 as [|x y' l l' Hxy _ IH]; intros Hin; [done|].
  destruct Hin as [<-|Hin].
  - exists x. split; [by left|done].
  - destruct (IH Hin) as (x' & Hx' & HP). exists x'. split; [by right|done].
Qed.

Lemma cast_Int64_range f y :
  cast_Int64 f = Ret (Some y) -> (int64_min <= y <= int64_max)%Z.
Proof.
  destruct f as [q| | |]; simpl; try discriminate.
  destruct (Qeq_bool q (inject_Z (trunc q))); simpl; [|discriminate].
  unfold fits_int64.
  destruct (int64_min <=? trunc q)%Z eqn:Hlo; simpl; [|discriminate].
  destruct (trunc q <=? int64_max)%Z eqn:Hhi; simpl; [|discriminate].
  intros [= <-]. apply Z.leb_le in Hlo, Hhi. lia.
Qed.

Lemma astype_Int64_range col years y :
  astype_Int64 col = Ret years -> In (Some y) years ->
  (int64_min <= y <= int64_max)%Z.
Proof.
  unfold astype_Int64. destruct (existsb _ _); [discriminate|].
  intros Hcast Hin. apply traverse_Forall2 in Hcast.
  destruct (Forall2_In_r _ _ _ _ Hcast Hin) as (f & _ & Hf).
  by eapply cast_Int64_range.
Qed.

Lemma coerce_indicator_year srcs recs df o y :
  Ingest.coerce_indicator srcs recs = Ret df -> In o df ->
  Obs.year o = Some y -> (int64_min <= y <= int64_max)%Z.
Proof.
  unfold Ingest.coerce_indicator. intros Hdf Ho Hy.
  destruct (to_numeric _) as [nums| | |]; cbn [obind] in Hdf; try discriminate.
  destruct (astype_Int64 nums) as [years| | |] eqn:Hcast; cbn [obind] in Hdf;
    try discriminate.
  destruct (to_numeric _) as [values| | |]; cbn [obind] in Hdf; try discriminate.
  inversion Hdf; subst df; clear Hdf.
  apply zip_with3_In in Ho as (r & oy & v & _ & Hoy & _ & ->).
  simpl in Hy. subst oy. by eapply astype_Int64_range.
Qed.

Lemma coerce_indicator_length srcs recs df :
  Ingest.coerce_indicator srcs recs = Ret df -> (length df <= length recs)%nat.
Proof.
  unfold Ingest.coerce_indicator. intros Hdf.
  destruct (to_numeric _) as [nums| | |]; cbn [obind] in Hdf; try discriminate.
  destruct (astype_Int64 nums) as [years| | |]; cbn [obind] in Hdf; try discriminate.
  destruct (to_numeric _) as [values| | |]; cbn [obind] in Hdf; try discriminate.
  inversion Hdf; subst df. apply zip_with3_length_le.
Qed.

(** The rows the normalizer returns are rows that pass [dropna], one per
    record at most. *)
Lemma fetch_indicators_long_normalize_kept rows table :
  Ingest.fetch_indicators_long_normalize rows = Ret table ->
  Forall required_present table /\ (length table <= length rows)%nat.
Proof.
  intros Htable.
  unfold Ingest.fetch_indicators_long_normalize, json_normalize in Htable.
  destruct (existsb is_list rows); [discriminate|]. cbn [obind] in Htable.
  destruct (Ingest.select_indicator_columns _) as [srcs| | |];
    cbn [obind] in Htable; try discriminate.
  cbn [records] in Htable.
  destruct (Ingest.coerce_indicator _ _) as [df| | |] eqn:Hdf; cbn [obind] in Htable;
    try discriminate.
  inversion Htable; subst table; clear Htable.
  split.
  - apply Forall_forall. intros o Ho. apply list_elem_of_In in Ho.
    apply filter_In in Ho as [Ho Hkeep].
    unfold Ingest.notna_keys in Hkeep.
    apply andb_true_iff in Hkeep as [Hkeep Hcode].
    apply andb_true_iff in Hkeep as [Hiso Hyear].
    apply negb_true_iff in Hiso, Hcode.
    split; [done|]. split; [|done].
    destruct (Obs.year o) as [y|] eqn:Hy; [|done]. exists y. split; [done|].
    by eapply coerce_indicator_year.
  - etransitivity; [apply List.filter_length_le|].
    apply coerce_indicator_length in Hdf. by rewrite length_map in Hdf.
Qed.

End NormalizerInvariant.

(** X13: whatever the batch, a table the indicator normalizer returns has in
    every row a country code and an indicator code that are not null and a
    year that is a 64-bit integer -- the data columns the destination
    declares REQUIRED -- and has no more rows than the batch has records;
    and no table is returned for the empty batch. *)
Theorem fetch_indicators_long_normalize_required {TX : Text}
    (rows : list Json) (table : list Obs.t)
    (Htable : Ingest.fetch_indicators_long_normalize rows = Ret table) :
  Forall required_present table
  /\ (length table <= length rows)%nat
  /\ rows <> [].
Proof.
  destruct (fetch_indicators_long_normalize_kept rows table Htable) as [Hreq Hlen].
  split; [done|]. split; [done|].
  intros ->. vm_compute in Htable. discriminate.
Qed.

Lemma fetch_indicators_long_normalize_required_witness :
  Forall required_present
    [Scenario.gdp_growth 2021 (Finite 3); Scenario.gdp_growth 2022 NaN]
  /\ (2 <= length Scenario.mixed_batch)%nat
  /\ Scenario.mixed_batch <> [].
Proof.
  apply (fetch_indicators_long_normalize_required (TX := Mock.text)
           Scenario.mixed_batch).
  vm_compute. reflexivity.
Defined.

(** ** The warehouse helpers *)

Section Warehouse.
Context {PF : Platform}.



(** A rejected load job changes no table: [bq_append_df] raises the job's
    error and the warehouse is what it was. *)
Lemma bq_append_df_rejected (table : string) (b : Batch) (st : St)
    (e : Exc) (w : World)
    (Hjob : load_job table b (world st) = (Some e, w)) :
  (Ingest.bq_append_df table b st).1 = Raise e
  /\ warehouse (Ingest.bq_append_df table b st).2 = warehouse st
  /\ trace (Ingest.bq_append_df table b st).2 = trace st ++ [EvLoad table b false].
Proof. unfold Ingest.bq_append_df. by rewrite Hjob. Qed.

End Warehouse.

(** A [get_table] call that times out on tables that are there: the
    indicator table is "created" again, which the service refuses. *)
Example bq_ensure_tables_lookup_times_out :
  let st := Scenario.both_tables Scenario.lookup_times_out 0%nat in
  let r := Ingest.bq_ensure_tables (PF := Scenario.lookup_times_out) "lab" "wb_raw" st in
  r.1 = Raise (Conflict Scenario.ind_table)
  /\ trace r.2 = [EvCreateTable Scenario.ind_table]
  /\ Ingest.table_rows (warehouse r.2) Scenario.ind_table = [IndicatorBatch []].
Proof. vm_compute. repeat split. Qed.

(** ** What [main] hands to the load jobs *)

Section MainBatches.
Context {TX : Text} {PF : Platform}.

(** As [main_prefix], with where the two frames come from: the dimension
    frame is what [fetch_countries_dim] returned, the observation frame is
    what [fetch_indicators_long] returned, filtered against the stamped
    dimension frame. *)
Lemma main_prefix_frames fuel getenv st :
  exists o st',
    Ingest.main fuel getenv st = (o, st')
    /\ ((o <> Ret tt
         /\ exists evs, trace st' = trace st ++ evs /\ loads evs = [])
        \/ (exists rid ts project dataset start_year end_year countries ind_df
                   st3 st4 stA rest,
              trace stA = trace st ++ EvUuid4 rid :: EvNow ts :: rest
              /\ Forall quiet rest
              /\ Ingest.fetch_countries_dim fuel st3 = (Ret countries, st4)
              /\ Ingest.fetch_indicators_long fuel start_year end_year
                   (map fst Ingest.INDICATORS) st4 = (Ret ind_df, stA)
              /\ (o, st')
                 = main_load (project +:+ "." +:+ dataset +:+ ".raw_country_dim")
                     (project +:+ "." +:+ dataset +:+ ".raw_wb_indicators_long")
                     (stamp ts rid countries)
                     (stamp ts rid
                        (Ingest.referential_filter
                           (Ingest.valid_iso3_of (stamp ts rid countries)) ind_df))
                     stA)).
Proof.
  assert (Hstop : forall (o : Outcome unit) stX evs,
    o <> Ret tt -> trace stX = trace st ++ evs -> loads evs = [] ->
    exists o' st',
      (o, stX) = (o', st')
      /\ ((o' <> Ret tt
           /\ exists evs, trace st' = trace st ++ evs /\ loads evs = [])
          \/ (exists rid ts project dataset start_year end_year countries ind_df
                     st3 st4 stA rest,
                trace stA = trace st ++ EvUuid4 rid :: EvNow ts :: rest
                /\ Forall quiet rest
                /\ Ingest.fetch_countries_dim fuel st3 = (Ret countries, st4)
                /\ Ingest.fetch_indicators_long fuel start_year end_year
                     (map fst Ingest.INDICATORS) st4 = (Ret ind_df, stA)
                /\ (o', st')
                   = main_load (project +:+ "." +:+ dataset +:+ ".raw_country_dim")
                       (project +:+ "." +:+ dataset +:+ ".raw_wb_indicators_long")
                       (stamp ts rid countries)
                       (stamp ts rid
                          (Ingest.referential_filter
                             (Ingest.valid_iso3_of (stamp ts rid countries)) ind_df))
                       stA))).
  { intros o stX evs Ho Htr Hl. exists o, stX. split; [done|]. left.
    split; [done|]. by exists evs. }
  assert (Hnil : trace st = trace st ++ []) by (by rewrite app_nil_r).
  unfold Ingest.main.
  destruct (Ingest.env_missing getenv "GCP_PROJECT_ID"); [by eapply Hstop|].
  destruct (Ingest.env_missing getenv "GOOGLE_APPLICATION_CREDENTIALS");
    [by eapply Hstop|].
  rewrite bind_lift.
  destruct (int (JStr (Ingest.getenv_or getenv "WB_START_YEAR" "2020")))
    as [start_year|e| |]; try (by eapply Hstop).
  rewrite bind_lift.
  destruct (int (JStr (Ingest.getenv_or getenv "WB_END_YEAR" "2025")))
    as [end_year|e| |]; try (by eapply Hstop).
  rewrite bind_perform. rewrite bind_perform.
  destruct (uuid4 (world st)) as [rid w1]. simpl fst; simpl snd.
  destruct (datetime_now_utc w1) as [ts w2]. simpl fst; simpl snd.
  set (st2 := log (EvNow ts) (set_world w2 (log (EvUuid4 rid) (set_world w1 st)))).
  set (project := Ingest.getenv_or getenv "GCP_PROJECT_ID" "").
  set (dataset := Ingest.getenv_or getenv "BQ_DATASET_RAW" "wb_raw").
  unfold bind at 1.
  pose proof (Quiet_bigquery_Client project st2) as Q2.
  destruct (Ingest.bigquery_Client project st2) as [[[]|e| |] stC]; simpl in Q2.
  2,3,4: (destruct (after_draw _ _ _ _ _ _ Q2) as (T & rest & Htr & Hq);
          eapply Hstop; [done|exact Htr|];
          unfold loads; simpl; by apply loads_quiet).
  unfold bind at 1.
  pose proof (Quiet_bq_ensure_tables project dataset stC) as Q3.
  destruct (Ingest.bq_ensure_tables project dataset stC) as [[tables|e| |] st3] eqn:Etab;
    simpl in Q3; pose proof (quietly_trans _ _ _ Q2 Q3) as Q23.
  2,3,4: (destruct (after_draw _ _ _ _ _ _ Q23) as (T & rest & Htr & Hq);
          eapply Hstop; [done|exact Htr|];
          unfold loads; simpl; by apply loads_quiet).
  apply bq_ensure_tables_ret in Etab as ->. cbn [fst snd].
  unfold bind at 1.
  pose proof (Quiet_fetch_countries_dim fuel st3) as Q4.
  destruct (Ingest.fetch_countries_dim fuel st3) as [[countries|e| |] st4] eqn:Hcty;
    simpl in Q4; pose proof (quietly_trans _ _ _ Q23 Q4) as Q34.
  2,3,4: (destruct (after_draw _ _ _ _ _ _ Q34) as (T & rest & Htr & Hq);
          eapply Hstop; [done|exact Htr|];
          unfold loads; simpl; by apply loads_quiet).
  unfold bind at 1.
  match goal with
  | |- context [Ingest.fetch_indicators_long ?f ?s ?e ?c st4] =>
      pose proof (Quiet_fetch_indicators_long f s e c st4) as Q5;
      destruct (Ingest.fetch_indicators_long f s e c st4) as [[ind_df|e'| |] st5] eqn:Hind
  end; simpl in Q5; pose proof (quietly_trans _ _ _ Q34 Q5) as Q35;
    destruct (after_draw _ _ _ _ _ _ Q35) as (T & rest & Htr & Hq).
  2,3,4: (eapply Hstop; [done|exact Htr|];
          unfold loads; simpl; by apply loads_quiet).
  eexists _, _. split; [apply surjective_pairing|]. right.
  exists rid, ts, project, dataset, start_year, end_year, countries, ind_df,
    st3, st4, st5, rest.
  split; [done|]. split; [done|]. split; [done|]. split; [exact Hind|].
  by rewrite <- surjective_pairing.
Qed.

Lemma fetch_indicators_long_ret fuel s e codes st df st' :
  Ingest.fetch_indicators_long fuel s e codes st = (Ret df, st') ->
  exists rows, Ingest.fetch_indicators_long_normalize rows = Ret df.
Proof.
  unfold Ingest.fetch_indicators_long, bind, lift. intros Hrun.
  destruct (Ingest.fetch_indicators_long_pages _ _ _ _ _ _ _) as [[rows|err| |] st1];
    try discriminate.
  exists rows. by inversion Hrun.
Qed.

Lemma referential_filter_In countries ind_df o :
  In o (Ingest.referential_filter (Ingest.valid_iso3_of countries) ind_df) ->
  In o ind_df
  /\ exists d, In d countries
       /\ isna (Dim.country_iso3 (row d)) = false
       /\ str (Dim.country_iso3 (row d)) = str (Obs.country_iso3 o).
Proof.
  unfold Ingest.referential_filter, Ingest.valid_iso3_of.
  rewrite filter_In, bool_decide_eq_true, elem_of_list_to_set, list_elem_of_In,
    in_map_iff.
  intros (Hin & c & Hstr & Hc). split; [done|].
  apply filter_In in Hc as (Hc & Hna). apply in_map_iff in Hc as (d & <- & Hd).
  exists d. by rewrite negb_true_iff in Hna.
Qed.

(** The load jobs of a run, with the frames they carry. *)
Lemma main_loads_frames fuel getenv st :
  exists evs,
    trace (Ingest.main fuel getenv st).2 = trace st ++ evs
    /\ (loads evs = []
        \/ exists rid ts cty ind countries ind_df,
             Forall required_present ind_df
             /\ (loads evs = [EvLoad cty (CountryBatch (stamp ts rid countries)) false]
                 \/ exists c,
                      loads evs
                      = [EvLoad cty (CountryBatch (stamp ts rid countries)) true;
                         EvLoad ind
                           (IndicatorBatch
                              (stamp ts rid
                                 (Ingest.referential_filter
                                    (Ingest.valid_iso3_of (stamp ts rid countries))
                                    ind_df))) c])).
Proof.
  destruct (main_prefix_frames fuel getenv st) as (o & st' & -> & [Hstop|Hload]).
  - destruct Hstop as (_ & evs & Htr & Hl). exists evs. split; [done|]. by left.
  - destruct Hload as (rid & ts & project & dataset & sy & ey & countries & ind_df
                       & st3 & st4 & stA & rest & Htr & Hq & _ & Hind & Hrun).
    destruct (fetch_indicators_long_ret _ _ _ _ _ _ _ Hind) as (rows & Hrows).
    destruct (fetch_indicators_long_normalize_kept rows ind_df Hrows) as [Hreq _].
    set (cty := project +:+ "." +:+ dataset +:+ ".raw_country_dim") in *.
    set (ind := project +:+ "." +:+ dataset +:+ ".raw_wb_indicators_long") in *.
    assert (Hl : forall tail,
      loads (EvUuid4 rid :: EvNow ts :: rest ++ tail) = loads tail).
    { intros tail. unfold loads at 1. simpl.
      fold (loads (rest ++ tail)). by rewrite loads_app, (loads_quiet rest Hq). }
    destruct (main_load_cases cty ind (stamp ts rid countries)
                (stamp ts rid
                   (Ingest.referential_filter
                      (Ingest.valid_iso3_of (stamp ts rid countries)) ind_df)) stA)
      as [(e & w & Hc)|[(e & w & w' & Hc)|(w & w' & Hc)]];
      rewrite Hc in Hrun; inversion Hrun; subst o st'; clear Hrun; simpl;
      rewrite Htr, <- ?app_assoc; simpl;
      (eexists; split; [reflexivity|]); right;
      exists rid, ts, cty, ind, countries, ind_df; (split; [done|]).
    + left. by rewrite Hl.
    + right. eexists. by rewrite Hl.
    + right. eexists. by rewrite Hl.
Qed.

Lemma in_loads ev evs : In ev evs -> is_load ev = true -> In ev (loads evs).
Proof. intros Hin Hl. apply filter_In. by split. Qed.

End MainBatches.

(** X16: referential integrity of what is loaded: in every run of [main],
    an observation batch is handed to a load job only after the dimension
    batch of the same run was committed, and each of its rows has the country
    code, as text, of a row of that dimension batch whose code is not null. *)
Theorem main_loads_only_known_countries {TX : Text} {PF : Platform}
    (fuel : nat) (getenv : string -> option string) (st : St) :
  exists evs,
    trace (Ingest.main fuel getenv st).2 = trace st ++ evs
    /\ forall ind ob c,
         In (EvLoad ind (IndicatorBatch ob) c) evs ->
         exists cty cb,
           In (EvLoad cty (CountryBatch cb) true) evs
           /\ Forall (fun o =>
                exists d, In d cb
                  /\ isna (Dim.country_iso3 (row d)) = false
                  /\ str (Dim.country_iso3 (row d))
                     = str (Obs.country_iso3 (row o))) ob.
Proof.
  destruct (main_loads_frames fuel getenv st) as (evs & Htr & Hloads).
  exists evs. split; [done|]. intros ind ob c Hin.
  apply in_loads in Hin; [|done].
  destruct Hloads as [Hnone|(rid & ts & cty & ind' & countries & ind_df & _ & Hways)].
  { rewrite Hnone in Hin. destruct Hin. }
  destruct Hways as [Hone|(c' & Htwo)].
  { rewrite Hone in Hin. destruct Hin as [Heq|[]]. discriminate. }
  assert (Hfirst : In (EvLoad cty (CountryBatch (stamp ts rid countries)) true) evs).
  { assert (Hin' : In (EvLoad cty (CountryBatch (stamp ts rid countries)) true)
                     (loads evs)) by (rewrite Htwo; by left).
    by apply filter_In in Hin' as [? _]. }
  rewrite Htwo in Hin. destruct Hin as [Heq|[Heq|[]]]; [discriminate|].
  inversion Heq; subst. exists cty, (stamp ts rid countries). split; [done|].
  unfold stamp at 1. apply Forall_map. apply Forall_forall. intros o Ho. simpl.
  apply list_elem_of_In in Ho.
  by destruct (referential_filter_In _ _ _ Ho) as [_ Hd].
Qed.

(** X17: in every run of [main], every row of an observation batch handed to
    a load job has the three data columns the table declares REQUIRED: a
    country code and an indicator code that are not null, and a year that is
    a 64-bit integer. *)
Theorem main_loads_required_columns {TX : Text} {PF : Platform}
    (fuel : nat) (getenv : string -> option string) (st : St) :
  exists evs,
    trace (Ingest.main fuel getenv st).2 = trace st ++ evs
    /\ forall ind ob c,
         In (EvLoad ind (IndicatorBatch ob) c) evs ->
         Forall (fun o => required_present (row o)) ob.
Proof.
  destruct (main_loads_frames fuel getenv st) as (evs & Htr & Hloads).
  exists evs. split; [done|]. intros ind ob c Hin.
  apply in_loads in Hin; [|done].
  destruct Hloads as [Hnone|(rid & ts & cty & ind' & countries & ind_df & Hreq & Hways)].
  { rewrite Hnone in Hin. destruct Hin. }
  destruct Hways as [Hone|(c' & Htwo)].
  { rewrite Hone in Hin. destruct Hin as [Heq|[]]. discriminate. }
  rewrite Htwo in Hin. destruct Hin as [Heq|[Heq|[]]]; [discriminate|].
  inversion Heq; subst.
  unfold stamp. apply Forall_map. apply Forall_forall. intros o Ho. simpl.
  apply list_elem_of_In in Ho.
  destruct (referential_filter_In _ _ _ Ho) as [Ho' _].
  apply (proj1 (Forall_forall _ _) Hreq). by apply list_elem_of_In.
Qed.

(** ** Where the requests go *)

Section Requests.
Context {TX : Text} {PF : Platform}.

Lemma Emits_ret {A} P (a : A) : Emits P (ret a).
Proof. intros st. exists []. simpl. by rewrite app_nil_r. Qed.

Lemma Emits_raise {A} P e : Emits P (raise (A := A) e).
Proof. intros st. exists []. simpl. by rewrite app_nil_r. Qed.

Lemma Emits_lift {A} P (o : Outcome A) : Emits P (lift o).
Proof. intros st. exists []. simpl. by rewrite app_nil_r. Qed.

Lemma Emits_out_of_fuel {A} P : Emits P (out_of_fuel (A := A)).
Proof. intros st. exists []. simpl. by rewrite app_nil_r. Qed.

Lemma Emits_bind {A B} P (m : M A) (k : A -> M B) :
  Emits P m -> (forall a, Emits P (k a)) -> Emits P (bind m k).
Proof.
  intros Hm Hk st. unfold bind. destruct (Hm st) as (e1 & H1 & P1).
  destruct (m st) as [[a|e| |] st1]; simpl in *; try by exists e1.
  destruct (Hk a st1) as (e2 & H2 & P2). exists (e1 ++ e2).
  rewrite H2, H1, <- app_assoc. split; [done|]. by apply Forall_app.
Qed.

Lemma Emits_bind_val {A B} P (V : A -> Prop) (m : M A) (k : A -> M B) :
  Emits P m -> (forall st a st1, m st = (Ret a, st1) -> V a) ->
  (forall a, V a -> Emits P (k a)) -> Emits P (bind m k).
Proof.
  intros Hm HV Hk st. unfold bind. destruct (Hm st) as (e1 & H1 & P1).
  destruct (m st) as [[a|e| |] st1] eqn:Hrun; simpl in *; try by exists e1.
  destruct (Hk a (HV _ _ _ Hrun) st1) as (e2 & H2 & P2). exists (e1 ++ e2).
  rewrite H2, H1, <- app_assoc. split; [done|]. by apply Forall_app.
Qed.

Lemma Emits_impl {A} (P Q : Event -> Prop) (m : M A) :
  (forall ev, P ev -> Q ev) -> Emits P m -> Emits Q m.
Proof.
  intros HPQ Hm st. destruct (Hm st) as (evs & Htr & HP). exists evs.
  split; [done|]. eapply Forall_impl; [exact HP|done].
Qed.

Lemma Emits_perform {A} P (op : World -> A * World) (ev : A -> Event) :
  (forall a, P (ev a)) -> Emits P (perform op ev).
Proof.
  intros HP st. unfold perform. destruct (op (world st)) as [a w]. simpl.
  exists [ev a]. split; [done|]. by constructor.
Qed.

Lemma Emits_time_sleep P q : P (EvSleep q) -> Emits P (time_sleep q).
Proof. intros HP st. exists [EvSleep q]. split; [done|]. by constructor. Qed.

Lemma Emits_wb_get_json_attempts P url params timeout_s attempts :
  P (EvGet url params timeout_s) -> (forall q, P (EvSleep q)) ->
  forall last_err,
  Emits P (Ingest.wb_get_json_attempts attempts last_err url params timeout_s).
Proof.
  intros Hget Hsleep.
  induction attempts as [|attempt rest IH]; intros last_err; simpl;
    [apply Emits_raise|].
  apply Emits_bind; [by apply Emits_perform|].
  intros [e|r]; repeat case_match;
    repeat (first [apply Emits_ret | apply IH
                  | apply Emits_bind; [by apply Emits_time_sleep|intros _]]).
Qed.

Lemma requests_from_mono url params page page' ev :
  (page <= page')%Z -> requests_from url params page' ev ->
  requests_from url params page ev.
Proof.
  intros Hle. destruct ev; simpl; try done.
  intros (-> & -> & q & Hq & ->). repeat split; try done. exists q. split; [lia|done].
Qed.

Lemma Emits_wb_get_json_page url (params : Z -> Params) page :
  Emits (requests_from url params page) (Ingest.wb_get_json url (params page)).
Proof.
  apply Emits_wb_get_json_attempts; [|done].
  simpl. do 2 (split; [done|]). exists page. split; [lia|done].
Qed.

Lemma Emits_fetch_indicators_long_pages fuel url s e : forall page rows,
  Emits (requests_from url (Ingest.indicator_params s e) page)
    (Ingest.fetch_indicators_long_pages fuel url s e page rows).
Proof.
  induction fuel as [|fuel IH]; intros page rows; simpl; [apply Emits_out_of_fuel|].
  apply Emits_bind;
    [apply (Emits_wb_get_json_page url (Ingest.indicator_params s e))|].
  intros data. case_match; [apply Emits_ret|].
  apply Emits_bind; [apply Emits_lift|]. intros more.
  apply Emits_bind; [apply Emits_lift|]. intros [|]; [apply Emits_ret|].
  eapply Emits_impl; [|apply IH].
  intros ev. apply requests_from_mono. lia.
Qed.

Lemma Emits_fetch_countries_dim_pages fuel : forall page rows,
  Emits (requests_from Ingest.country_url Ingest.country_params page)
    (Ingest.fetch_countries_dim_pages fuel page rows).
Proof.
  induction fuel as [|fuel IH]; intros page rows; simpl; [apply Emits_out_of_fuel|].
  apply Emits_bind;
    [apply (Emits_wb_get_json_page Ingest.country_url Ingest.country_params)|].
  intros data.
  apply Emits_bind; [apply Emits_lift|]. intros meta.
  apply Emits_bind; [apply Emits_lift|]. intros items.
  apply Emits_bind; [apply Emits_lift|]. intros more.
  apply Emits_bind; [apply Emits_lift|]. intros [|]; [apply Emits_ret|].
  eapply Emits_impl; [|apply IH].
  intros ev. apply requests_from_mono. lia.
Qed.

Lemma Emits_ensure_table P table :
  P (EvCreateTable table) -> Emits P (Ingest.ensure_table table).
Proof.
  intros HP st. unfold Ingest.ensure_table.
  destruct (get_table table (world st)) as [g w].
  destruct (create_table table w) as [c w'].
  destruct g as [e|], (warehouse st !! table) as [bs|], c as [e'|]; simpl;
    first [ by (exists []; rewrite app_nil_r)
          | exists [EvCreateTable table]; split; [done|]; by constructor ].
Qed.

Lemma Emits_bigquery_Client P project : Emits P (Ingest.bigquery_Client project).
Proof.
  intros st. unfold Ingest.bigquery_Client.
  destruct (new_client project (world st)) as [r w]. simpl.
  exists []. by rewrite app_nil_r.
Qed.

Lemma Emits_bq_append_df P table df :
  (forall c, P (EvLoad table df c)) -> Emits P (Ingest.bq_append_df table df).
Proof.
  intros HP st. unfold Ingest.bq_append_df.
  destruct (load_job table df (world st)) as [[e|] w]; simpl;
    (eexists [_]; split; [reflexivity|]; by constructor).
Qed.

End Requests.

(** X18: [main] sends requests to two places only: pages 1, 2, ... of the
    country endpoint with [per_page=400], and pages 1, 2, ... of the
    indicator endpoint for the compiled-in indicator codes with
    [per_page=20000], [source=2] and one [date] range; all with
    [format=json] and a timeout of 60 seconds. *)
Theorem main_requests {TX : Text} {PF : Platform}
    (fuel : nat) (getenv : string -> option string) (st : St) :
  exists evs,
    trace (Ingest.main fuel getenv st).2 = trace st ++ evs
    /\ Forall wb_request evs.
Proof.
  revert st. change (Emits wb_request (Ingest.main fuel getenv)).
  unfold Ingest.main.
  case_match; [apply Emits_raise|]. case_match; [apply Emits_raise|].
  apply Emits_bind; [apply Emits_lift|]. intros start_year.
  apply Emits_bind; [apply Emits_lift|]. intros end_year.
  apply Emits_bind; [by apply Emits_perform|]. intros run_id.
  apply Emits_bind; [by apply Emits_perform|]. intros load_ts.
  apply Emits_bind; [apply Emits_bigquery_Client|]. intros _.
  apply Emits_bind.
  { unfold Ingest.bq_ensure_tables.
    apply Emits_bind; [by apply Emits_ensure_table|]. intros _.
    apply Emits_bind; [by apply Emits_ensure_table|]. intros _.
    apply Emits_ret. }
  intros tables.
  apply Emits_bind.
  { unfold Ingest.fetch_countries_dim.
    apply Emits_bind; [|intros rows; apply Emits_lift].
    eapply Emits_impl; [|apply Emits_fetch_countries_dim_pages].
    intros [u p t| | | | |]; simpl; try done.
    intros (-> & -> & q & Hq & ->). split; [done|]. left. split; [done|].
    by exists q. }
  intros countries.
  apply Emits_bind.
  { unfold Ingest.fetch_indicators_long.
    apply Emits_bind; [|intros rows; apply Emits_lift].
    eapply Emits_impl; [|apply Emits_fetch_indicators_long_pages].
    intros [u p t| | | | |]; simpl; try done.
    intros (-> & -> & q & Hq & ->). split; [done|]. right. split; [done|].
    by exists start_year, end_year, q. }
  intros ind_df.
  apply Emits_bind; [by apply Emits_bq_append_df|]. intros _.
  apply Emits_bind; [by apply Emits_bq_append_df|]. intros _.
  apply Emits_ret.
Qed.

(** X19: the years asked for are those of the environment: every indicator
    request of a run carries [date=s:e] where [s] is the integer read from
    [WB_START_YEAR] (["2020"] when unset) and [e] the one read from
    [WB_END_YEAR] (["2025"] when unset); when one of the two is not an
    integer, [main] fails before its first request or table creation. *)
Theorem main_year_range {TX : Text} {PF : Platform}
    (fuel : nat) (getenv : string -> option string) (st : St) :
  exists evs,
    trace (Ingest.main fuel getenv st).2 = trace st ++ evs
    /\ match int (JStr (Ingest.getenv_or getenv "WB_START_YEAR" "2020")),
             int (JStr (Ingest.getenv_or getenv "WB_END_YEAR" "2025")) with
       | Ret s, Ret e => Forall (asks_for_years s e) evs
       | _, _ => evs = [] /\ forall u, (Ingest.main fuel getenv st).1 <> Ret u
       end.
Proof.
  destruct (int (JStr (Ingest.getenv_or getenv "WB_START_YEAR" "2020")))
    as [s|es| |] eqn:Hs;
    [destruct (int (JStr (Ingest.getenv_or getenv "WB_END_YEAR" "2025")))
       as [e|ee| |] eqn:He|..].
  2-7: exists []; rewrite app_nil_r; unfold Ingest.main; rewrite Hs, ?He;
       destruct (Ingest.env_missing getenv "GCP_PROJECT_ID");
       [|destruct (Ingest.env_missing getenv "GOOGLE_APPLICATION_CREDENTIALS")];
       done.
  revert st. change (Emits (asks_for_years s e) (Ingest.main fuel getenv)).
  unfold Ingest.main. rewrite Hs, He.
  case_match; [apply Emits_raise|]. case_match; [apply Emits_raise|].
  apply Emits_bind_val with (V := fun a => a = s);
    [apply Emits_lift|by intros ? ? ? [= ->]|]. intros start_year ->.
  apply Emits_bind_val with (V := fun a => a = e);
    [apply Emits_lift|by intros ? ? ? [= ->]|]. intros end_year ->.
  apply Emits_bind; [by apply Emits_perform|]. intros run_id.
  apply Emits_bind; [by apply Emits_perform|]. intros load_ts.
  apply Emits_bind; [apply Emits_bigquery_Client|]. intros _.
  apply Emits_bind.
  { unfold Ingest.bq_ensure_tables.
    apply Emits_bind; [by apply Emits_ensure_table|]. intros _.
    apply Emits_bind; [by apply Emits_ensure_table|]. intros _.
    apply Emits_ret. }
  intros tables.
  apply Emits_bind.
  { unfold Ingest.fetch_countries_dim.
    apply Emits_bind; [|intros rows; apply Emits_lift].
    eapply Emits_impl; [|apply Emits_fetch_countries_dim_pages].
    intros [u p t| | | | |]; simpl; try done.
    intros (-> & _). by left. }
  intros countries.
  apply Emits_bind.
  { unfold Ingest.fetch_indicators_long.
    apply Emits_bind; [|intros rows; apply Emits_lift].
    eapply Emits_impl; [|apply Emits_fetch_indicators_long_pages].
    intros [u p t| | | | |]; simpl; try done.
    intros (_ & _ & q & _ & ->). right. by exists q. }
  intros ind_df.
  apply Emits_bind; [by apply Emits_bq_append_df|]. intros _.
  apply Emits_bind; [by apply Emits_bq_append_df|]. intros _.
  apply Emits_ret.
Qed.

(** ** What a run does to the tables, and when *)

(** X20: [main] is append-only: whatever the outcome of a run, every table
    holds afterwards the rows it held before, in the same order, followed by
    at most one new batch. *)
Theorem main_only_appends {TX : Text} {PF : Platform}
    (fuel : nat) (getenv : string -> option string) (st : St) (t : string) :
  exists added,
    Ingest.table_rows (warehouse (Ingest.main fuel getenv st).2) t
    = Ingest.table_rows (warehouse st) t ++ added
    /\ (length added <= 1)%nat.
Proof.
  destruct (main_runs fuel getenv st) as (o & st' & evs & -> & Htr & Hcases).
  simpl. destruct Hcases as [(_ & T & _)|Hload].
  - exists []. rewrite app_nil_r. split; [apply T|simpl; lia].
  - destruct Hload as (rid & ts & rest & cty & ind & countries & obs & stA
                       & Hne & Hq & T & Hways).
    destruct Hways as [(e & w & -> & -> & ->)|[(e & w & w' & -> & -> & ->)
                                              |(w & w' & -> & -> & ->)]]; simpl.
    + exists []. rewrite app_nil_r. split; [apply T|simpl; lia].
    + destruct (decide (t = cty)) as [->|Ht].
      * eexists [_]. rewrite table_rows_insert_eq, T. split; [done|simpl; lia].
      * exists []. rewrite app_nil_r, table_rows_insert_ne, T by done.
        split; [done|simpl; lia].
    + destruct (decide (t = ind)) as [->|Hi].
      * eexists [_]. rewrite table_rows_insert_eq, table_rows_insert_ne, T by done.
        split; [done|simpl; lia].
      * rewrite table_rows_insert_ne by done.
        destruct (decide (t = cty)) as [->|Ht].
        -- eexists [_]. rewrite table_rows_insert_eq, T. split; [done|simpl; lia].
        -- exists []. rewrite app_nil_r, table_rows_insert_ne, T by done.
           split; [done|simpl; lia].
Qed.

(** X21: loading comes last and fails fast: in every run of [main] all
    requests, sleeps and table creations precede the first load job, at most
    two load jobs follow, and a rejected load job is the last event of the
    run -- it is not retried and nothing is loaded after it. *)
Theorem main_loads_last {TX : Text} {PF : Platform}
    (fuel : nat) (getenv : string -> option string) (st : St) :
  exists before jobs,
    trace (Ingest.main fuel getenv st).2 = trace st ++ before ++ jobs
    /\ loads before = []
    /\ Forall (fun ev => is_load ev = true) jobs
    /\ (length jobs <= 2)%nat
    /\ forall table batch,
         In (EvLoad table batch false) jobs ->
         last jobs = Some (EvLoad table batch false)
         /\ (Ingest.main fuel getenv st).1 <> Ret tt.
Proof.
  destruct (main_runs fuel getenv st) as (o & st' & evs & -> & Htr & Hcases).
  simpl. destruct Hcases as [(Ho & _ & Hshape)|Hload].
  - exists evs, []. rewrite app_nil_r. split; [done|]. split.
    { destruct Hshape as [->|(rid & ts & rest & -> & Hq)]; [done|].
      unfold loads. simpl. by apply loads_quiet. }
    split; [constructor|]. split; [simpl; lia|]. intros ? ? [].
  - destruct Hload as (rid & ts & rest & cty & ind & countries & obs & stA
                       & Hne & Hq & T & Hways).
    assert (Hb : loads (EvUuid4 rid :: EvNow ts :: rest) = []).
    { unfold loads. simpl. by apply loads_quiet. }
    destruct Hways as [(e & w & -> & -> & ->)|[(e & w & w' & -> & -> & ->)
                                              |(w & w' & -> & -> & ->)]];
      rewrite Htr;
      (eexists (EvUuid4 rid :: EvNow ts :: rest), _;
       split; [reflexivity|]; split; [exact Hb|];
       split; [by repeat constructor|]; split; [simpl; lia|]);
      intros table batch Hin; simpl in Hin.
    + destruct Hin as [Heq|[]]. inversion Heq; subst. done.
    + destruct Hin as [Heq|[Heq|[]]]; [discriminate|]. inversion Heq; subst. done.
    + destruct Hin as [Heq|[Heq|[]]]; discriminate.
Qed.

(** X22: [main] touches its own two tables only, named after
    [GCP_PROJECT_ID] and [BQ_DATASET_RAW] (["wb_raw"] when unset): it creates
    no other table, and it loads dimension batches into [raw_country_dim]
    and observation batches into [raw_wb_indicators_long], never the other
    way round. *)
Theorem main_writes_its_two_tables {TX : Text} {PF : Platform}
    (fuel : nat) (getenv : string -> option string) (st : St) :
  exists evs,
    trace (Ingest.main fuel getenv st).2 = trace st ++ evs
    /\ Forall (own_tables (Ingest.getenv_or getenv "GCP_PROJECT_ID" "")
                 (Ingest.getenv_or getenv "BQ_DATASET_RAW" "wb_raw")) evs.
Proof.
  revert st.
  set (P := own_tables (Ingest.getenv_or getenv "GCP_PROJECT_ID" "")
              (Ingest.getenv_or getenv "BQ_DATASET_RAW" "wb_raw")).
  change (Emits P (Ingest.main fuel getenv)).
  assert (Hnet : forall url params page ev, requests_from url params page ev -> P ev).
  { intros url params page [u p t| | | | |]; simpl; done. }
  unfold Ingest.main.
  case_match; [apply Emits_raise|]. case_match; [apply Emits_raise|].
  apply Emits_bind; [apply Emits_lift|]. intros start_year.
  apply Emits_bind; [apply Emits_lift|]. intros end_year.
  apply Emits_bind; [by apply Emits_perform|]. intros run_id.
  apply Emits_bind; [by apply Emits_perform|]. intros load_ts.
  apply Emits_bind; [apply Emits_bigquery_Client|]. intros _.
  apply (Emits_bind_val P (fun tables =>
           tables = (Ingest.getenv_or getenv "GCP_PROJECT_ID" "" +:+ "." +:+
                     Ingest.getenv_or getenv "BQ_DATASET_RAW" "wb_raw" +:+
                     ".raw_wb_indicators_long",
                     Ingest.getenv_or getenv "GCP_PROJECT_ID" "" +:+ "." +:+
                     Ingest.getenv_or getenv "BQ_DATASET_RAW" "wb_raw" +:+
                     ".raw_country_dim"))).
  { unfold Ingest.bq_ensure_tables.
    apply Emits_bind; [apply Emits_ensure_table; by left|]. intros _.
    apply Emits_bind; [apply Emits_ensure_table; by right|]. intros _.
    apply Emits_ret. }
  { intros st a st1 Hrun. by apply bq_ensure_tables_ret in Hrun. }
  intros tables ->. simpl fst; simpl snd.
  apply Emits_bind.
  { unfold Ingest.fetch_countries_dim.
    apply Emits_bind; [|intros rows; apply Emits_lift].
    eapply Emits_impl; [apply Hnet|apply Emits_fetch_countries_dim_pages]. }
  intros countries.
  apply Emits_bind.
  { unfold Ingest.fetch_indicators_long.
    apply Emits_bind; [|intros rows; apply Emits_lift].
    eapply Emits_impl; [apply Hnet|apply Emits_fetch_indicators_long_pages]. }
  intros ind_df.
  apply Emits_bind; [by apply Emits_bq_append_df|]. intros _.
  apply Emits_bind; [by apply Emits_bq_append_df|]. intros _.
  apply Emits_ret.
Qed.

(** ** Missing columns *)

Section MissingColumns.
Context {TX : Text}.

Lemma has_column_batch_has rows c :
  has_column {| columns := frame_columns (map flatten rows);
                records := map flatten rows |} c = true
  <-> batch_has rows c.
Proof.
  unfold has_column. simpl columns.
  rewrite existsb_eqb_In. symmetry. apply batch_has_column.
Qed.

Lemma has_column_false rows c :
  has_column {| columns := frame_columns (map flatten rows);
                records := map flatten rows |} c = false
  <-> ~ batch_has rows c.
Proof.
  rewrite <- has_column_batch_has. by destruct (has_column _ c).
Qed.

End MissingColumns.

(** X23: a column no item has is a [KeyError], not a column of nulls: when
    [region.id] or one of the nine kept columns occurs in no item of the
    batch, the dimension normalizer returns no table and raises [KeyError]
    for columns that are indeed absent. *)
Theorem fetch_countries_dim_normalize_missing_column {TX : Text}
    (rows : list Json) (c : string)
    (Hlists : existsb is_list rows = false)
    (Hc : In c country_fields)
    (Hnone : ~ batch_has rows c) :
  exists missing,
    Ingest.fetch_countries_dim_normalize rows = Raise (KeyError missing)
    /\ missing <> []
    /\ Forall (fun m => In m country_fields /\ ~ batch_has rows m) missing.
Proof.
  unfold Ingest.fetch_countries_dim_normalize, json_normalize.
  rewrite Hlists. cbn [obind].
  set (df := {| columns := frame_columns (map flatten rows);
                records := map flatten rows |}).
  destruct (has_column df "region.id") eqn:Hregion; cbn [negb].
  - destruct Hc as [<-|Hc].
    { apply has_column_false in Hnone. unfold df in Hregion. congruence. }
    destruct (List.filter (fun c0 => negb (has_column df c0)) (map fst Ingest.keep_cols))
      as [|m missing] eqn:Hmissing.
    + exfalso.
      assert (Hin : In c (List.filter (fun c0 => negb (has_column df c0))
                            (map fst Ingest.keep_cols))).
      { apply filter_In. split; [done|]. apply negb_true_iff.
        by apply has_column_false. }
      rewrite Hmissing in Hin. destruct Hin.
    + eexists. split; [reflexivity|]. split; [done|].
      rewrite <- Hmissing. apply Forall_forall. intros x Hx.
      apply list_elem_of_In, filter_In in Hx as [Hx Habs].
      split; [by right|]. apply has_column_false. by apply negb_true_iff.
  - exists ["region.id"]. split; [done|]. split; [done|].
    constructor; [|constructor]. split; [by left|]. by apply has_column_false.
Qed.

Lemma fetch_countries_dim_normalize_missing_column_witness :
  exists missing,
    Ingest.fetch_countries_dim_normalize (TX := Mock.text) [Scenario.bare_country]
    = Raise (KeyError missing)
    /\ missing <> []
    /\ Forall (fun m => In m country_fields /\ ~ batch_has [Scenario.bare_country] m)
         missing.
Proof.
  apply (fetch_countries_dim_normalize_missing_column (TX := Mock.text)
           [Scenario.bare_country] "capitalCity").
  - reflexivity.
  - simpl. tauto.
  - intros (row & Hrow & Hkey). destruct Hrow as [<-|[]].
    vm_compute in Hkey. discriminate.
Defined.

(** X24: the same in the indicator normalizer: when no record has a field
    that carries the output name [c] after the renaming, the normalizer
    returns no table and raises a [KeyError] that names [c]. *)
Theorem fetch_indicators_long_normalize_missing_column {TX : Text}
    (rows : list Json) (c : string)
    (Hlists : existsb is_list rows = false)
    (Hc : In c Ingest.indicator_columns)
    (Hnone : forall c0, Ingest.renamed c0 = c -> ~ batch_has rows c0) :
  exists missing,
    Ingest.fetch_indicators_long_normalize rows = Raise (KeyError missing)
    /\ In c missing.
Proof.
  unfold Ingest.fetch_indicators_long_normalize, json_normalize.
  rewrite Hlists. cbn [obind].
  set (df := {| columns := frame_columns (map flatten rows);
                records := map flatten rows |}).
  assert (Hsrc : Ingest.sources df c = []).
  { unfold Ingest.sources. apply filter_none. intros c0 Hc0.
    destruct (String.eqb_spec (Ingest.renamed c0) c) as [Heq|]; [|done].
    exfalso. apply (Hnone c0 Heq). by apply batch_has_column. }
  assert (Hin : In c (List.filter (fun c1 => Ingest.is_nil (Ingest.sources df c1))
                        Ingest.indicator_columns)).
  { apply filter_In. split; [done|]. by rewrite Hsrc. }
  unfold Ingest.select_indicator_columns.
  destruct (List.filter (fun c1 => Ingest.is_nil (Ingest.sources df c1))
              Ingest.indicator_columns) as [|m missing]; [destruct Hin|].
  eexists. split; [reflexivity|done].
Qed.

Lemma fetch_indicators_long_normalize_missing_column_witness :
  exists missing,
    Ingest.fetch_indicators_long_normalize (TX := Mock.text) Scenario.batch_without_iso3
    = Raise (KeyError missing)
    /\ In "country_iso3" missing.
Proof.
  apply (fetch_indicators_long_normalize_missing_column (TX := Mock.text)
           Scenario.batch_without_iso3 "country_iso3").
  - reflexivity.
  - simpl. tauto.
  - intros c0 Hren (row & Hrow & Hkey). destruct Hrow as [<-|[]].
    unfold Ingest.renamed, Ingest.rename_indicator in Hren. simpl in Hren.
    destruct (String.eqb_spec c0 "countryiso3code") as [Heq|_].
    { subst c0. vm_compute in Hkey. discriminate Hkey. }
    repeat match type of Hren with
           | context [String.eqb c0 ?b] =>
               destruct (String.eqb_spec c0 b) as [_|_]; [discriminate Hren|]
           end.
    simpl in Hren. subst c0. vm_compute in Hkey. discriminate Hkey.
Defined.
